(* ===== verification/_CoqProject ===== *)
-Q . S2P
Prelude.v
PyStr.v
Preprocess.v
Ranking.v
Recommend.v
Vectorizer.v
Similarity.v
Cosine.v
Store.v
Pipeline.v
Search.v
App.v
