(* ===== verification/Prelude.v ===== *)
(** * A verified model of the Course Recommender System

    This development models the two Python files of the repository
    (src/CourseRecommendationSystem.py, the offline build, and src/main.py,
    the Streamlit page that serves queries) as executable Rocq definitions,
    and proves the properties that make the recommender correct, together
    with the places where the code departs from its specification.

    ** The program

    The build (CourseRecommendationSystem.py, [main]) reads the Coursera
    CSV, normalises three text columns and composes a stemmed [tags] text
    per course ([preprocess_data]), turns the tags into count vectors with
    scikit-learn's [CountVectorizer] and takes their pairwise cosine
    similarity ([create_similarity_matrix]), then pickles the matrix and
    the table under models/ ([save_resources]). The page (main.py) loads
    the two pickles once ([load_resources] under [st.cache_data]), searches
    the table for a query ([enhanced_search]), filters by difficulty, lays
    out result cards, and would list the six courses most similar to a
    selected one ([get_recommendations]).

    ** Files, modules and the code they model

    - Prelude (this file): the [result] error monad with its [let*]
      notation (scope [crs_scope]), the hint databases [crs] and
      [crs_rw], the tactics [inv_ok], [case_bools], [lookup_simpl], and
      lemmas on [mapR], filters, sortedness, [take] and [drop].
    - PyStr, module [PyStr]: the Python string operations the code calls,
      over Latin-1 [string]s: [lower] ([str.lower]), [strip], [split],
      [join], [strip_punct] ([re.sub(r'[^\w\s]', '', x)]), [collapse_ws]
      ([str.replace(r'\s+', ' ', regex=True)]), [contains] (substring
      search). The character classes [is_word], [is_space] and [lower_char]
      are CPython's tables for the 256 Latin-1 code points, checked by
      evaluation ([by_table]).
    - Preprocess, module [Preprocess]: the table as a [frame] of rows,
      each a [gmap] from column name to a cell, a cell being [None] for
      NaN; [preprocess_data] is the pipeline of lines 10-48 step by step
      ([clean_columns], [add_tags], [stem_tags], [rename_column],
      [select_courses]), with pandas' [KeyError] and the [AttributeError]
      of a NaN tag as [py_error] values. [PreprocessFacts] proves its
      row-by-row contract and the cleanliness of the stored text.
    - Ranking, module [Ranking]: [enumerate] and the stable descending
      sort of [sorted(..., key=lambda x: x[1], reverse=True)] as an
      insertion sort [sort_desc], generic over a score type through the
      class [ScoreOrder] (a strict weak order, [ScoreOrderLaws]).
    - Recommend, module [Recommend]: [get_recommendations] of main.py
      (lines 60-71): [find_course], [sorted_scores] (the [[1:7]] slice),
      [name_at] ([iloc]) and the [except] clause as an error message.
    - Vectorizer, module [Vectorizer]: [CountVectorizer] as line 52
      configures it, with the stop-word list and [max_features] as section
      variables ([code_max_features] = 5000).
    - Similarity, module [Similarity]: [cosine_similarity] over count
      vectors, computed exactly in [Q] as the squared cosine [cosine_sq].
    - Cosine, module [Cosine]: the same matrix over the reals, as the code
      computes it (rows normalised by [sqrt] of their squared norm), and
      its relation to the exact model.
    - Pipeline, module [Pipeline]: [create_similarity_matrix], [build]
      (lines 66-72, the build's [main] up to the save) and [main] (lines
      66-76, the build then [save_resources], with the exception that
      stops it as a [main_error]); two examples run the spec's scenarios on
      sample frames by [vm_compute].
    - Search, module [Search]: [enhanced_search] and the difficulty filter
      of main.py, against the class [RegexEngine] that stands for Python's
      [re].
    - Store, module [Store]: an explicit file system ([fs]: directories and
      files), [save_resources] as a list of writes run in order
      ([save_ops], [run_ops]; [run_op] raises [FileExistsError] when
      [os.makedirs] meets a file, [FileNotFoundError] and
      [IsADirectoryError] as [open(path, 'wb')] does) and [load_resources]
      with its two [except] clauses.
    - App, module [App]: one run of the Streamlit script as [run_page] on
      the cache, the session state, the disk and the two widgets, and the
      rerun relation [step] with its [reachable] states; a session as the
      views of successive reruns ([run_trace]). The state is that of one
      browser session: [st.cache_data] is shared by all sessions of a
      server, which the model does not represent (the theorems follow one
      session; another session can only fill the cache earlier).

    ** What is proved

    - Build to page: on what the build produces, recommending never fails
      ([Pipeline.build_recommend_no_error]); [main] succeeds exactly when
      the build does and models/ can be written, and leaves a matched pair
      on disk ([Pipeline.main_matched_pair]); courses with no common term
      have similarity 0.
    - Refinement of the float ranking: every entry of the real cosine
      matrix is the square root of the model's entry, and mapping the
      scores by an order-preserving function changes no ranking
      ([Ranking.sort_desc_rescale], [Recommend.get_recommendations_rescale]),
      so [get_recommendations] answers the same on the real matrix as on
      the model ([Cosine.get_recommendations_real_cosine]).
    - Ranking: [sort_desc] is the one permutation sorted by decreasing
      score with ties in index order, i.e. Python's stable sort; the slice
      keeps the best entries after the first, and excludes the queried
      course when its own score is the strict maximum; but when an earlier
      course ties the queried course at the top of its row, the queried
      course's own name heads its recommendations
      ([Recommend.get_recommendations_self_tie]), a defect of the [[1:7]]
      slice (Pipeline.v shows it on a built table).
    - Recommendation: no match gives no names and no error; at most six
      names; with a square matrix the names are those of the sorted
      slice; a matrix shorter than the table gives the error message;
      queries are case-insensitive.
    - Similarity: entries lie in [0, 1], the matrix is symmetric, its
      diagonal is 1 (0 for an empty vector).
    - Preprocessing: success exactly when the columns exist and no
      difficulty is NaN, with each course's fields given row by row; the
      cleaned text is normalised and the cleaning idempotent.
    - Vectorizer: the vocabulary's size, well-formedness and that the
      [max_features] cut keeps the most frequent terms; the empty-vocabulary
      [ValueError] is raised exactly when no token survives.
    - Search: literal queries select exactly the courses containing them;
      a query with punctuation matches nothing on a built table.
    - Store: saving succeeds exactly in a [save_ready] state, and loading
      then returns what was saved; the exception each other state raises,
      and which files are written before it; the load's errors; an
      interrupted save serves a mismatched pair.
    - Page: from a fresh session [selected_course] is never set, so the
      recommendation section is never shown; a cached run ignores the
      disk; end to end, the first run after a save lists exactly the saved
      courses matching a literal query; the difficulty options; the filter
      shows exactly the found courses of the selected difficulty, and
      "Found 0" when it excludes all.
    - Liveness of the page, over sessions: started cold, with no file of
      the wrong type, the page serves from the first rerun that finds the
      artifacts and at every rerun after it, whatever the disk then holds
      (an invariant established once and preserved by every rerun, as
      [always] in coqutil); a wrong-typed table, once cached, makes every
      later rerun fail.

    ** Modelling choices

    Strings are Latin-1 [string]s: the Coursera data is read as text, and
    the character classes of Python's [re] and [str.lower] agree with the
    tables here on those code points (other Unicode code points are not
    modelled). Cosine similarity is kept as its square, an exact rational,
    so that the matrix is computable by [vm_compute]; Cosine.v proves that
    the real cosine is its square root and that the recommendations agree.
    Floating-point rounding is not modelled: the real matrix is the value
    numpy's computation approximates, and ties in the model are ties of the
    exact values (numpy may break a near tie either way). The Porter stemmer and scikit-learn's English stop
    list are parameters ([stem], [is_stop]): every theorem holds for all of
    them. Python's regular-expression engine is the interface
    [RegexEngine] with one law, that a pattern without metacharacters is a
    substring search. No definition takes fuel: every recursion is
    structural on a list or a string ([str.split()] is modelled by its
    documented result, the maximal runs of non-whitespace), so every
    operation is total by construction. The error texts of pandas and
    numpy ([IndexError] messages) are given approximately: the theorems
    are about whether a message is shown, not its wording.

    ** Not modelled

    What is left out is either library code the repository only calls, or
    display only:
    - [pd.read_csv] (lines 11-12): the development starts from the parsed
      frame.
    - The pickle byte format: a file holds the object itself, so that the
      save/load round trip is exact by construction; what is proved about
      the store is which writes succeed, in which order, and what the load
      then reads.
    - File permissions: [PermissionError] from [os.makedirs] or [open]
      is not modelled, nor a directory at a path [load_resources] opens
      for reading.
    - NLTK's Porter stemmer (line 29) and scikit-learn's English stop-word
      list (line 52). Both are parameters, so every theorem holds for any
      stemmer and any list. Neither library's source is part of the
      repository, and the exact stop list could not be checked against
      its source here, so it is not written out.
    - Python's [re] beyond literal patterns.
    - numpy's [argsort] tie-break at the [max_features] cut-off: a stable
      sort is used instead.
    - Float rounding (see above).
    - What Streamlit draws: page configuration (lines 8-12), the header
      markdown (lines 35-42), column widths, HTML, CSS and the spinner.
      Lines 118-132 of main.py are commented out. *)

From stdpp Require Export base list strings gmap sorting.
From Stdlib Require Export Lia Ascii.

(** ** Results of code that raises

    Python code that can raise an exception is modelled as a function into
    [result E A]: [Ok a] for a normal return and [Err e] for the exception
    [e]. The notation [let* x := c in k] threads the error as Python does:
    the first exception aborts the rest of the computation. *)

Inductive result (E A : Type) : Type :=
| Ok (a : A)
| Err (e : E).
Arguments Ok {E A} a.
Arguments Err {E A} e.

Definition result_bind {E A B} (c : result E A) (k : A -> result E B) : result E B :=
  match c with
  | Ok a => k a
  | Err e => Err e
  end.

Definition result_map {E A B} (f : A -> B) (c : result E A) : result E B :=
  result_bind c (fun a => Ok (f a)).

(** [mapR f l] applies a raising function to each element, left to right,
    and stops at the first exception, as a Python [for] loop does. *)
Fixpoint mapR {E A B} (f : A -> result E B) (l : list A) : result E (list B) :=
  match l with
  | [] => Ok []
  | x :: l' =>
      result_bind (f x) (fun y => result_bind (mapR f l') (fun ys => Ok (y :: ys)))
  end.

Declare Scope crs_scope.
Delimit Scope crs_scope with crs.
Notation "'let*' x := c 'in' k" := (result_bind c (fun x => k))
  (at level 100, x name, c at level 100, k at level 200, right associativity)
  : crs_scope.
Open Scope crs_scope.

Create HintDb crs.
Create Rewrite HintDb crs_rw.

(** ** Shared lemmas on results *)

Lemma result_bind_Ok {E A B} (c : result E A) (k : A -> result E B) b :
  result_bind c k = Ok b <-> exists a, c = Ok a /\ k a = Ok b.
Proof. destruct c; simpl; naive_solver. Qed.

Lemma mapR_Ok {E A B} (f : A -> result E B) l ys :
  mapR f l = Ok ys <-> Forall2 (fun x y => f x = Ok y) l ys.
Proof.
  revert ys; induction l as [|x l IH]; intros ys; simpl.
  - split; [intros [= <-]; constructor | intros H; inversion H; done].
  - rewrite result_bind_Ok. split.
    + intros (y & Hy & Hk). apply result_bind_Ok in Hk as (ys' & Hys & [= <-]).
      constructor; [done | by apply IH].
    + intros H. inversion H as [|? y ? ys' Hy Hys]; subst.
      exists y. split; [done |]. apply result_bind_Ok. exists ys'.
      split; [by apply IH | done].
Qed.

Lemma mapR_length {E A B} (f : A -> result E B) l ys :
  mapR f l = Ok ys -> length ys = length l.
Proof. intros H%mapR_Ok. symmetry. by eapply Forall2_length. Qed.

Lemma result_bind_assoc {E A B C} (c : result E A) (k1 : A -> result E B) (k2 : B -> result E C) :
  result_bind (result_bind c k1) k2 = result_bind c (fun a => result_bind (k1 a) k2).
Proof. by destruct c. Qed.

Lemma result_bind_ext {E A B} (c : result E A) (k k' : A -> result E B) :
  (forall a, k a = k' a) -> result_bind c k = result_bind c k'.
Proof. intros H. destruct c; simpl; [apply H | done]. Qed.

Lemma filter_Forall_not {A} (P : A -> Prop) `{!forall x, Decision (P x)} l :
  Forall (fun x => ~ P x) l -> filter P l = [].
Proof. induction 1; [done|]. by rewrite filter_cons_False. Qed.

(** Stdlib's [map] is stdpp's [fmap] on lists. *)
Lemma map_fmap {A B} (f : A -> B) (l : list A) : map f l = f <$> l.
Proof. induction l as [|x l IH]; simpl; [done|]. by rewrite IH. Qed.

Lemma mapR_map {E A B C} (g : B -> result E C) (f : A -> B) l :
  mapR g (map f l) = mapR (fun x => g (f x)) l.
Proof. induction l as [|x l IH]; simpl; [done|]. by rewrite IH. Qed.

Lemma mapR_ext {E A B} (g g' : A -> result E B) l :
  Forall (fun x => g x = g' x) l -> mapR g l = mapR g' l.
Proof. induction 1 as [|x l Hx _ IH]; simpl; [done|]. by rewrite Hx, IH. Qed.

(** Mapping a raising function over a list and then combining each input
    with its output is one pass that raises at the same element. *)
Lemma mapR_zip_with {E A B C D} (g : A -> result E B) (h : A -> B -> C) (k : C -> D) l :
  result_bind (mapR g l) (fun ys => Ok (map k (zip_with h l ys))) =
  mapR (fun x => result_bind (g x) (fun y => Ok (k (h x y)))) l.
Proof.
  induction l as [|x l IH]; simpl; [done|].
  destruct (g x); simpl; [|done]. rewrite <- IH. by destruct (mapR g l).
Qed.

(** Two lists sorted by the same irreflexive, asymmetric relation and
    holding the same elements are equal. *)
Lemma StronglySorted_Permutation_eq {A} (R : A -> A -> Prop) l1 l2 :
  (forall x, ~ R x x) -> (forall x y, R x y -> R y x -> False) ->
  StronglySorted R l1 -> StronglySorted R l2 -> l1 ≡ₚ l2 -> l1 = l2.
Proof.
  intros Hirr Hasym Hs1. revert l2.
  induction Hs1 as [|x l1 Hs1 IH Hx1]; intros l2 Hs2 Hp.
  - symmetry. by apply Permutation_nil_r.
  - destruct Hs2 as [|y l2 Hs2 Hy2].
    { by apply Permutation_nil_r in Hp. }
    assert (x = y) as <-.
    { pose proof (Permutation_in x Hp (in_eq _ _)) as [->|Hxl2]; [done|].
      pose proof (Permutation_in y (Permutation_sym Hp) (in_eq _ _)) as [->|Hyl1]; [done|].
      rewrite Forall_forall in Hx1, Hy2.
      exfalso. apply (Hasym x y); [apply Hx1 | apply Hy2]; by apply list_elem_of_In. }
    f_equal. apply IH; [done|]. by apply Permutation_cons_inv in Hp.
Qed.

Lemma StronglySorted_app_inv {A} (R : A -> A -> Prop) l1 l2 x y :
  StronglySorted R (l1 ++ l2) -> x ∈ l1 -> y ∈ l2 -> R x y.
Proof.
  induction l1 as [|z l1 IH]; simpl; [set_solver|].
  intros Hs%StronglySorted_inv Hx Hy. destruct Hs as [Hs Hz].
  apply elem_of_cons in Hx as [->|Hx]; [|by apply IH].
  rewrite Forall_forall in Hz. apply Hz, elem_of_app. by right.
Qed.

Lemma StronglySorted_app_inv_l {A} (R : A -> A -> Prop) l1 l2 :
  StronglySorted R (l1 ++ l2) -> StronglySorted R l1.
Proof.
  induction l1 as [|x l1 IH]; simpl; [constructor|].
  intros [Hs Hx]%StronglySorted_inv. constructor; [by apply IH|].
  rewrite Forall_forall in Hx |- *. intros y Hy. apply Hx, elem_of_app. by left.
Qed.

Lemma StronglySorted_sublist {A} (R : A -> A -> Prop) l1 l2 :
  l1 `sublist_of` l2 -> StronglySorted R l2 -> StronglySorted R l1.
Proof.
  induction 1 as [|x l1 l2 Hsub IH|x l1 l2 Hsub IH]; intros Hs; [constructor| |].
  - apply StronglySorted_inv in Hs as [Hs Hx]. constructor; [by apply IH|].
    rewrite Forall_forall in Hx |- *. intros y Hy. apply Hx. by eapply elem_of_sublist.
  - apply StronglySorted_inv in Hs as [Hs _]. by apply IH.
Qed.

Lemma fmap_fst_filter {A B} (P : A -> Prop) `{!forall x, Decision (P x)} (l : list (A * B)) :
  (filter (fun p => P p.1) l).*1 = filter P l.*1.
Proof.
  induction l as [|[a b] l IH]; [done|].
  rewrite fmap_cons, !filter_cons. simpl. case_decide; rewrite ?fmap_cons; by f_equal.
Qed.

Lemma elem_of_take_sub {A} n (l : list A) x : x ∈ take n l -> x ∈ l.
Proof. intros H. rewrite <- (take_drop n l). apply elem_of_app. by left. Qed.

Lemma elem_of_drop_sub {A} n (l : list A) x : x ∈ drop n l -> x ∈ l.
Proof. intros H. rewrite <- (take_drop n l). apply elem_of_app. by right. Qed.

Lemma mapR_Forall_Ok {E A B} (f : A -> result E B) l :
  Forall (fun x => exists y, f x = Ok y) l -> exists ys, mapR f l = Ok ys.
Proof.
  induction 1 as [|x l [y Hy] _ [ys Hys]]; simpl; [by eexists|].
  rewrite Hy. simpl. rewrite Hys. by eexists.
Qed.

(** ** Shared tactics *)

(** [inv_ok H] turns an equation [result_bind c k = Ok b] in [H] into the
    equations of its two steps. *)
Ltac inv_ok H :=
  let a := fresh "a" in
  let Hc := fresh "Hc" in
  apply result_bind_Ok in H as (a & Hc & H).

(** [case_bools] splits every boolean [if] of the goal on its condition. *)
Ltac case_bools :=
  repeat match goal with
         | |- context [if ?b then _ else _] =>
             lazymatch b with
             | context [if _ then _ else _] => fail
             | _ => destruct b eqn:?
             end
         end.

(** [lookup_simpl] reads lookups through inserts and deletes whose keys
    are distinct literals. *)
Ltac lookup_simpl :=
  repeat first [ rewrite lookup_insert_eq
               | rewrite lookup_insert_ne by discriminate
               | rewrite lookup_delete_eq
               | rewrite lookup_delete_ne by discriminate ].

#[export] Hint Resolve mapR_length : crs.
