(* ===== verification/PyStr.v ===== *)
(** * Python text primitives on Latin-1 strings

    The build pipeline and the page are written with Python's [str] methods
    and [re] patterns. This file gives them an executable meaning on Rocq
    [string]s, read as sequences of code points U+0000..U+00FF (Latin-1):
    - [is_space] is Python's [\s] and [str.isspace] on that range;
    - [is_word] is Python's [\w] (alphanumeric or [_]) on that range;
    - [lower] is [str.lower], [strip] is [str.strip()], [split] is
      [str.split()] with no argument, [join] is [sep.join];
    - [contains] is the substring test [q in s];
    - [runs p s] lists the maximal runs of characters satisfying [p], the
      common core of [str.split()] and of the token pattern
      [(?u)\b\w\w+\b] of scikit-learn's [CountVectorizer].
    The character tables were taken from CPython's Unicode database for the
    256 code points of the range; characters beyond U+00FF are not
    modelled. *)

From S2P Require Import Prelude.

Module PyStr.

Definition ord (c : ascii) : nat := nat_of_ascii c.

Definition in_range (lo hi n : nat) : bool := (lo <=? n) && (n <=? hi).

(** [\s]: tab, line feed, vertical tab, form feed, carriage return, the four
    information separators U+001C..U+001F, space, NEL and no-break space. *)
Definition is_space (c : ascii) : bool :=
  let n := ord c in
  in_range 9 13 n || in_range 28 32 n || (n =? 133) || (n =? 160).

(** [\w]: digits, ASCII letters, underscore, and the Latin-1 letters and
    numeric signs (ª ² ³ µ ¹ º ¼ ½ ¾, À..Ö, Ø..ö, ø..ÿ). *)
Definition is_word (c : ascii) : bool :=
  let n := ord c in
  in_range 48 57 n || in_range 65 90 n || (n =? 95) || in_range 97 122 n
  || (n =? 170) || in_range 178 179 n || (n =? 181) || in_range 185 186 n
  || in_range 188 190 n || in_range 192 214 n || in_range 216 246 n
  || in_range 248 255 n.

(** [str.lower] maps A..Z, À..Ö and Ø..Þ to the letter 32 code points
    further; every other character of the range is its own lower case. *)
Definition is_upper (c : ascii) : bool :=
  let n := ord c in in_range 65 90 n || in_range 192 214 n || in_range 216 222 n.

Definition lower_char (c : ascii) : ascii :=
  if is_upper c then ascii_of_nat (ord c + 32) else c.

Fixpoint smap (f : ascii -> ascii) (s : string) : string :=
  match s with
  | EmptyString => EmptyString
  | String c s' => String (f c) (smap f s')
  end.

Fixpoint sfilter (p : ascii -> bool) (s : string) : string :=
  match s with
  | EmptyString => EmptyString
  | String c s' => if p c then String c (sfilter p s') else sfilter p s'
  end.

Definition lower (s : string) : string := smap lower_char s.

(** [str.strip()]: drop leading and trailing whitespace. *)
Fixpoint lstrip (s : string) : string :=
  match s with
  | EmptyString => EmptyString
  | String c s' => if is_space c then lstrip s' else s
  end.

Fixpoint srev (s : string) : string :=
  match s with
  | EmptyString => EmptyString
  | String c s' => (srev s' ++ String c EmptyString)%string
  end.

Definition strip (s : string) : string := srev (lstrip (srev (lstrip s))).

(** Maximal runs of characters satisfying [p], in order; [cur] holds the
    current run, reversed. *)
Fixpoint string_of_rev (cur : list ascii) (acc : string) : string :=
  match cur with
  | [] => acc
  | c :: cur' => string_of_rev cur' (String c acc)
  end.

Definition flush (cur : list ascii) (rest : list string) : list string :=
  match cur with
  | [] => rest
  | _ => string_of_rev cur EmptyString :: rest
  end.

Fixpoint runs_go (p : ascii -> bool) (cur : list ascii) (s : string) : list string :=
  match s with
  | EmptyString => flush cur []
  | String c s' =>
      if p c then runs_go p (c :: cur) s' else flush cur (runs_go p [] s')
  end.

Definition runs (p : ascii -> bool) (s : string) : list string := runs_go p [] s.

(** [str.split()]: the maximal runs of non-whitespace characters. *)
Definition split (s : string) : list string := runs (fun c => negb (is_space c)) s.

(** [sep.join(l)]. *)
Definition join (sep : string) (l : list string) : string := String.concat sep l.

(** [q in s]: [q] occurs in [s] at some offset. *)
Fixpoint contains (q s : string) : bool :=
  String.prefix q s ||
  match s with
  | EmptyString => false
  | String _ s' => contains q s'
  end.

(** [re.sub(r'[^\w\s]', '', s)]: keep word and whitespace characters. *)
Definition strip_punct (s : string) : string :=
  sfilter (fun c => is_word c || is_space c) s.

(** [re.sub(r'\s+', ' ', s)]: every maximal run of whitespace becomes one
    space; [in_run] says the previous character was whitespace. *)
Fixpoint collapse_go (in_run : bool) (s : string) : string :=
  match s with
  | EmptyString => EmptyString
  | String c s' =>
      if is_space c then
        (if in_run then collapse_go true s' else String " " (collapse_go true s'))
      else String c (collapse_go false s')
  end.

Definition collapse_ws (s : string) : string := collapse_go false s.

(** Every character of [s] satisfies [p]. *)
Fixpoint sall (p : ascii -> bool) (s : string) : bool :=
  match s with
  | EmptyString => true
  | String c s' => p c && sall p s'
  end.

(** The characters [clean_text] of the build can produce: lower-case word
    characters and the plain space. *)
Definition clean_char (c : ascii) : bool :=
  (is_word c && negb (is_upper c)) || (ord c =? 32).

(** A normalised field: only [clean_char]s and no two spaces in a row. *)
Definition is_clean (s : string) : bool :=
  sall clean_char s && negb (contains "  " s).

(** ** Character tables, checked on all 256 code points *)

Definition all_chars : list ascii := map ascii_of_nat (seq 0 256).

Lemma all_chars_spec (p : ascii -> bool) :
  forallb p all_chars = true -> forall c, p c = true.
Proof.
  intros H c. rewrite forallb_forall in H. apply H.
  rewrite <- (ascii_nat_embedding c). apply in_map, in_seq.
  pose proof (nat_ascii_bounded c). lia.
Qed.

Ltac by_table := apply all_chars_spec; vm_compute; reflexivity.

Lemma lower_char_not_upper c : is_upper (lower_char c) = false.
Proof.
  assert (forall c, negb (is_upper (lower_char c)) = true) as H by by_table.
  specialize (H c). destruct (is_upper _); done.
Qed.

Lemma lower_char_word c : is_word (lower_char c) = is_word c.
Proof.
  assert (forall c, Bool.eqb (is_word (lower_char c)) (is_word c) = true) as H by by_table.
  by apply Bool.eqb_prop.
Qed.

Lemma lower_char_space c : is_space (lower_char c) = is_space c.
Proof.
  assert (forall c, Bool.eqb (is_space (lower_char c)) (is_space c) = true) as H by by_table.
  by apply Bool.eqb_prop.
Qed.

Lemma lower_char_id c : is_upper c = false -> lower_char c = c.
Proof. unfold lower_char. by intros ->. Qed.

Lemma word_not_space c : is_word c = true -> is_space c = false.
Proof.
  assert (forall c, negb (is_word c && is_space c) = true) as H by by_table.
  specialize (H c). destruct (is_word c), (is_space c); done.
Qed.

Lemma clean_char_space c : clean_char c = true -> is_space c = true -> c = " "%char.
Proof.
  assert (forall c, implb (clean_char c && is_space c) (ord c =? 32) = true) as H by by_table.
  intros H1 H2. specialize (H c). rewrite H1, H2 in H. simpl in H.
  apply Nat.eqb_eq in H. rewrite <- (ascii_nat_embedding c). unfold ord in H. by rewrite H.
Qed.

Lemma implb_apply a b : implb a b = true -> a = true -> b = true.
Proof. by destruct a, b. Qed.

Lemma clean_char_word_or_space c : clean_char c = true -> is_word c || is_space c = true.
Proof.
  apply implb_apply. revert c.
  change (forall c, (fun c => implb (clean_char c) (is_word c || is_space c)) c = true).
  by_table.
Qed.

Lemma clean_char_lower c : clean_char c = true -> lower_char c = c.
Proof.
  intros H. apply (bool_decide_eq_true_1 (lower_char c = c)). revert H. apply implb_apply. revert c.
  change (forall c, (fun c => implb (clean_char c) (bool_decide (lower_char c = c))) c = true).
  by_table.
Qed.

Lemma lower_word_or_space c :
  is_word c || is_space c = true -> is_space (lower_char c) || clean_char (lower_char c) = true.
Proof.
  apply implb_apply. revert c.
  change (forall c, (fun c => implb (is_word c || is_space c)
                      (is_space (lower_char c) || clean_char (lower_char c))) c = true).
  by_table.
Qed.

Lemma lower_char_idem c : lower_char (lower_char c) = lower_char c.
Proof. apply lower_char_id, lower_char_not_upper. Qed.

Lemma lower_idem s : lower (lower s) = lower s.
Proof. unfold lower. induction s as [|c s IH]; simpl; [done|]. by rewrite lower_char_idem, IH. Qed.

#[export] Hint Rewrite lower_char_not_upper lower_char_word lower_char_space : crs_rw.

(** ** Lemmas on the string primitives *)

Lemma sall_sfilter p s : sall p (sfilter p s) = true.
Proof. induction s as [|c s IH]; simpl; [done|]. destruct (p c) eqn:E; simpl; rewrite ?E; done. Qed.

Lemma sfilter_id p s : sall p s = true -> sfilter p s = s.
Proof.
  induction s as [|c s IH]; simpl; [done|].
  intros [-> H]%andb_prop. by rewrite IH.
Qed.

Lemma sall_smap q f s : sall q (smap f s) = sall (fun c => q (f c)) s.
Proof. induction s as [|c s IH]; simpl; congruence. Qed.

Lemma sall_impl (p q : ascii -> bool) s :
  (forall c, p c = true -> q c = true) -> sall p s = true -> sall q s = true.
Proof.
  intros Hpq. induction s as [|c s IH]; simpl; [done|].
  intros [Hc Hs]%andb_prop. by rewrite Hpq, IH.
Qed.

Lemma smap_id f s : sall (fun c => bool_decide (f c = c)) s = true -> smap f s = s.
Proof.
  induction s as [|c s IH]; simpl; [done|].
  intros [Hc Hs]%andb_prop. apply bool_decide_eq_true in Hc. by rewrite Hc, IH.
Qed.

Lemma space_is_space : is_space " " = true.
Proof. reflexivity. Qed.

Lemma not_space_ne c : is_space c = false -> c <> " "%char.
Proof. intros H ->. discriminate H. Qed.

(** The output of [collapse_ws] keeps the non-space characters and adds
    only plain spaces. *)
Lemma sall_collapse_go q b s :
  q " "%char = true -> sall (fun c => is_space c || q c) s = true ->
  sall q (collapse_go b s) = true.
Proof.
  intros Hsp. revert b. induction s as [|c s IH]; intros b; simpl; [done|].
  intros [Hc Hs]%andb_prop.
  destruct (is_space c); [destruct b|]; simpl in *; rewrite ?Hsp, ?Hc, ?IH; auto.
Qed.

Lemma prefix_cons a q b s :
  String.prefix (String a q) (String b s) = if ascii_dec a b then String.prefix q s else false.
Proof. reflexivity. Qed.

Lemma sprefix_nil s : String.prefix EmptyString s = true.
Proof. by destruct s. Qed.

Lemma contains_cons q c s : contains q (String c s) = String.prefix q (String c s) || contains q s.
Proof. reflexivity. Qed.

Lemma prefix_cons_ne a q b s : a <> b -> String.prefix (String a q) (String b s) = false.
Proof. intros Hne. rewrite prefix_cons. by destruct (ascii_dec a b). Qed.

(** [collapse_ws] never leaves two spaces in a row, and a run it has just
    replaced by a space is never followed by another one. *)
Lemma collapse_go_no_double b s :
  contains "  " (collapse_go b s) = false /\
  (b = true -> String.prefix " " (collapse_go b s) = false).
Proof.
  revert b. induction s as [|c s IH]; intros b; simpl; [done|].
  destruct (is_space c) eqn:Hc.
  - destruct b; [apply IH|]. split; [|done].
    destruct (IH true) as [H1 H2].
    rewrite contains_cons, prefix_cons, H1, H2 by done. done.
  - pose proof (not_space_ne c Hc). destruct (IH false) as [H1 _].
    rewrite contains_cons, !prefix_cons_ne, H1 by done. done.
Qed.

Lemma collapse_go_id b s :
  sall clean_char s = true -> contains "  " s = false ->
  (b = true -> String.prefix " " s = false) -> collapse_go b s = s.
Proof.
  revert b. induction s as [|c s IH]; intros b; [done|].
  cbn [sall collapse_go]. rewrite contains_cons.
  intros [Hc Hs]%andb_prop [Hpre Hcont]%orb_false_elim Hb.
  destruct (is_space c) eqn:Hsp.
  - apply clean_char_space in Hsp as ->; [|done].
    destruct b; [specialize (Hb eq_refl); simpl in Hb; by rewrite sprefix_nil in Hb|].
    simpl in Hpre. rewrite IH; auto.
  - rewrite IH; auto. intros [=].
Qed.

Lemma sapp_nil a : ("" +:+ a = a)%string.
Proof. reflexivity. Qed.

Lemma sapp_cons x a b : (String x a +:+ b = String x (a +:+ b))%string.
Proof. reflexivity. Qed.

Lemma sapp_assoc a b c : (a +:+ (b +:+ c) = (a +:+ b) +:+ c)%string.
Proof. induction a as [|x a IH]; [done|]. by rewrite !sapp_cons, IH. Qed.

Lemma sall_app p a b : sall p (a +:+ b) = sall p a && sall p b.
Proof. induction a as [|x a IH]; [done|]. rewrite sapp_cons. simpl. by rewrite IH, andb_assoc. Qed.

Lemma prefix_spec q s : String.prefix q s = true <-> exists b, s = (q +:+ b)%string.
Proof.
  revert s. induction q as [|a q IH]; intros s.
  - rewrite sprefix_nil. split; [by exists s | done].
  - destruct s as [|c s].
    + split; [done|]. intros [b Hb]. discriminate.
    + rewrite prefix_cons. destruct (ascii_dec a c) as [<-|Hne].
      * rewrite IH. setoid_rewrite sapp_cons.
        split; intros [b Hb]; exists b; [by rewrite Hb | by injection Hb].
      * split; [done|]. intros [b Hb]. rewrite sapp_cons in Hb. by injection Hb.
Qed.

(** [q in s] holds exactly when [s] is [a + q + b]. *)
Lemma contains_spec q s :
  contains q s = true <-> exists a b, s = (a +:+ q +:+ b)%string.
Proof.
  induction s as [|c s IH].
  - change (contains q "") with (String.prefix q "" || false).
    rewrite orb_false_r, prefix_spec. split.
    + intros [b Hb]. by exists "", b.
    + intros (a & b & Hab). destruct a as [|x a]; [by exists b|].
      rewrite sapp_cons in Hab. discriminate.
  - rewrite contains_cons, orb_true_iff, prefix_spec, IH. split.
    + intros [[b Hb]|(a & b & Hab)]; [by exists "", b|].
      exists (String c a), b. by rewrite sapp_cons, Hab.
    + intros (a & b & Hab). destruct a as [|x a]; [left; by exists b|].
      rewrite sapp_cons in Hab. injection Hab as -> ->. right. eauto.
Qed.

Lemma contains_trans r q s : contains r q = true -> contains q s = true -> contains r s = true.
Proof.
  rewrite !contains_spec. intros (a & b & ->) (c & d & ->).
  exists (c +:+ a)%string, (b +:+ d)%string. by rewrite !sapp_assoc.
Qed.

(** A piece of a normalised field is normalised. *)
Lemma contains_clean q s : is_clean s = true -> contains q s = true -> is_clean q = true.
Proof.
  unfold is_clean. intros [Hs Hd]%andb_prop Hq. apply negb_true_iff in Hd.
  apply andb_true_intro. split.
  - apply contains_spec in Hq as (a & b & ->). rewrite !sall_app in Hs.
    by destruct (sall clean_char a), (sall clean_char q), (sall clean_char b).
  - apply negb_true_iff. destruct (contains "  " q) eqn:Hqq; [|done].
    by rewrite (contains_trans _ _ _ Hqq Hq) in Hd.
Qed.

Lemma lower_clean s : is_clean s = true -> lower s = s.
Proof.
  unfold is_clean. intros [Hs _]%andb_prop. apply smap_id.
  eapply sall_impl; [|exact Hs]. intros c Hc. apply bool_decide_eq_true_2.
  by apply clean_char_lower.
Qed.

End PyStr.
