(* ===== verification/Preprocess.v ===== *)
(** * The offline build: [preprocess_data]

    Models src/CourseRecommendationSystem.py, [preprocess_data] (lines
    10-48): the Text Normalizer and the Tag Composer of the spec. The frame
    that [pd.read_csv] returns is a [frame]: its column names and its rows,
    each row a map from column name to cell; a cell is a string or NaN (a
    field missing from the CSV). Each statement of the function is one
    definition, and [preprocess_data] composes them in the code's order, so
    that the first [KeyError] or [AttributeError] the code raises is the
    error the model returns. NLTK's Porter stemmer is the parameter [stem]
    of the section: the code only calls it. *)

From S2P Require Import Prelude PyStr.
Import PyStr.

Module Preprocess.

(** A pandas cell: [Some s] for a string, [None] for NaN. *)
Abbreviation cell := (option string).

(** A row maps column names to cells; a name with no entry reads as NaN,
    as [read_csv] pads a short line with NaN. *)
Abbreviation row := (gmap string cell).

Record frame := mk_frame { header : list string; rows : list row }.

Inductive py_error :=
| KeyError (cols : list string)
| AttributeError (what : string).

(** The processed row that [new_df] holds (lines 37-46). *)
Record course := mk_course {
  course_name : string;
  university : cell;
  difficulty : cell;
  rating : cell;
  url : cell;
  description : string;
  skills : string;
  tags : string
}.

Definition get (r : row) (col : string) : cell := default None (r !! col).

(** [Series.astype(str)]: NaN prints as ["nan"]. *)
Definition astype_str (c : cell) : string :=
  match c with Some s => s | None => "nan" end.

(** Lines 17-18: strip punctuation, lower-case, collapse whitespace. *)
Definition clean_text (s : string) : string := collapse_ws (lower (strip_punct s)).

(** [data[col] = f(data[col])]: [KeyError] when the column is absent. *)
Definition column_op (col : string) (f : cell -> cell) (df : frame) : result py_error frame :=
  if decide (col ∈ header df) then
    Ok (mk_frame (header df) (map (fun r => <[col := f (get r col)]> r) (rows df)))
  else Err (KeyError [col]).

Definition clean_column (col : string) (df : frame) : result py_error frame :=
  column_op col (fun c => Some (clean_text (astype_str c))) df.

(** Lines 15-18: the loop over the three text columns, in order. *)
Definition text_columns : list string :=
  ["Course Name"; "Course Description"; "Skills"].

Fixpoint clean_columns (cols : list string) (df : frame) : result py_error frame :=
  match cols with
  | [] => Ok df
  | col :: cols' => let* df' := clean_column col df in clean_columns cols' df'
  end.

(** Series [+]: string concatenation, NaN when either side is NaN. *)
Definition cat_cell (a b : cell) : cell :=
  match a, b with Some x, Some y => Some (x +:+ y) | _, _ => None end.

Definition sp : cell := Some " ".

(** Lines 21-26: [tags] is name, difficulty, description and skills joined
    by single spaces; the operands are read left to right, so a missing
    'Difficulty Level' is the [KeyError] raised. *)
Definition tag_columns : list string :=
  ["Course Name"; "Difficulty Level"; "Course Description"; "Skills"].

Definition tags_of_row (r : row) : cell :=
  cat_cell (cat_cell (cat_cell (cat_cell (cat_cell (cat_cell
    (get r "Course Name") sp) (get r "Difficulty Level")) sp)
    (get r "Course Description")) sp) (get r "Skills").

Definition add_tags (df : frame) : result py_error frame :=
  match list_find (fun c => c ∉ header df) tag_columns with
  | Some (_, c) => Err (KeyError [c])
  | None =>
      Ok (mk_frame (header df ++ (if decide ("tags" ∈ header df) then [] else ["tags"]))
                   (map (fun r => <[ "tags" := tags_of_row r ]> r) (rows df)))
  end.

Section Stemming.

(** The stemmer ([PorterStemmer().stem]); NLTK's code is not modelled. *)
Variable stem : string -> string.

(** Line 30: [' '.join([ps.stem(word) for word in x.split()])]. *)
Definition stem_words (s : string) : string := join " " (map stem (split s)).

(** [x.split()] on a NaN (a float) raises [AttributeError]. *)
Definition stem_cell (c : cell) : result py_error cell :=
  match c with
  | Some s => Ok (Some (stem_words s))
  | None => Err (AttributeError "'float' object has no attribute 'split'")
  end.

Definition stem_tags (df : frame) : result py_error frame :=
  let* cells := mapR (fun r => stem_cell (get r "tags")) (rows df) in
  Ok (mk_frame (header df) (zip_with (fun r c => <[ "tags" := c ]> r) (rows df) cells)).

(** Line 34: [rename] ignores an absent column. *)
Definition rename_column (old new : string) (df : frame) : frame :=
  mk_frame (map (fun c => if decide (c = old) then new else c) (header df))
           (map (fun r => match r !! old with
                          | Some v => <[new := v]> (delete old r)
                          | None => r
                          end) (rows df)).

(** Lines 37-46: [data[[...]]] raises [KeyError] naming every absent
    column; each selected row becomes a [course]. *)
Definition selected_columns : list string :=
  ["course_name"; "University"; "Difficulty Level"; "Course Rating";
   "Course URL"; "Course Description"; "Skills"; "tags"].

Definition course_of_row (r : row) : course :=
  mk_course (astype_str (get r "course_name")) (get r "University")
    (get r "Difficulty Level") (get r "Course Rating") (get r "Course URL")
    (astype_str (get r "Course Description")) (astype_str (get r "Skills"))
    (astype_str (get r "tags")).

Definition select_courses (df : frame) : result py_error (list course) :=
  match filter (fun c => c ∉ header df) selected_columns with
  | [] => Ok (map course_of_row (rows df))
  | missing => Err (KeyError missing)
  end.

(** [preprocess_data], after [pd.read_csv] has produced [df]. *)
Definition preprocess_data (df : frame) : result py_error (list course) :=
  let* df := clean_columns text_columns df in
  let* df := add_tags df in
  let* df := stem_tags df in
  select_courses (rename_column "Course Name" "course_name" df).

(** The row-level contract of the spec (sections 4.1 and 4.2): what one
    raw row becomes, read field by field. *)
Definition raw_columns : list string :=
  ["Course Name"; "University"; "Difficulty Level"; "Course Rating";
   "Course URL"; "Course Description"; "Skills"].

Definition row_course (r : row) : result py_error course :=
  let name := clean_text (astype_str (get r "Course Name")) in
  let desc := clean_text (astype_str (get r "Course Description")) in
  let sk := clean_text (astype_str (get r "Skills")) in
  match get r "Difficulty Level" with
  | None => Err (AttributeError "'float' object has no attribute 'split'")
  | Some d =>
      Ok (mk_course name (get r "University") (Some d) (get r "Course Rating")
            (get r "Course URL") desc sk
            (stem_words ((((((name +:+ " ") +:+ d) +:+ " ") +:+ desc) +:+ " ") +:+ sk)))
  end.

End Stemming.

End Preprocess.

Module PreprocessFacts.
Import Preprocess.

Section Properties.
Variable stem : string -> string.

(** The three text columns after lines 15-18, one row at a time. *)
Definition cleaned_row (r : row) : row :=
  let r1 := <["Course Name" := Some (clean_text (astype_str (get r "Course Name")))]> r in
  let r2 := <["Course Description" :=
               Some (clean_text (astype_str (get r1 "Course Description")))]> r1 in
  <["Skills" := Some (clean_text (astype_str (get r2 "Skills")))]> r2.

Lemma clean_columns_text df :
  Forall (fun c => c ∈ header df) text_columns ->
  clean_columns text_columns df = Ok (mk_frame (header df) (map cleaned_row (rows df))).
Proof.
  unfold text_columns. rewrite !Forall_cons. intros (H1 & H2 & H3 & _).
  unfold clean_columns, clean_column, column_op. simpl.
  rewrite decide_True by done. simpl. rewrite decide_True by done. simpl.
  rewrite decide_True by done. simpl. by rewrite !map_map.
Qed.

Lemma add_tags_present df :
  Forall (fun c => c ∈ header df) tag_columns ->
  add_tags df = Ok (mk_frame (header df ++ (if decide ("tags" ∈ header df) then [] else ["tags"]))
                      (map (fun r => <[ "tags" := tags_of_row r ]> r) (rows df))).
Proof.
  intros H. unfold add_tags. rewrite (proj2 (list_find_None _ _)); [done|].
  eapply Forall_impl; [exact H|]. intros c Hc Hn. by apply Hn.
Qed.

(** One raw row through the whole pipeline gives [row_course]. *)
Lemma pipeline_row r :
  result_bind (stem_cell stem (get (<[ "tags" := tags_of_row (cleaned_row r) ]> (cleaned_row r)) "tags"))
    (fun c => Ok (course_of_row
       (match (<[ "tags" := c ]> (<[ "tags" := tags_of_row (cleaned_row r) ]> (cleaned_row r))) !! "Course Name" with
        | Some v => <["course_name" := v]> (delete "Course Name"
                      (<[ "tags" := c ]> (<[ "tags" := tags_of_row (cleaned_row r) ]> (cleaned_row r))))
        | None => <[ "tags" := c ]> (<[ "tags" := tags_of_row (cleaned_row r) ]> (cleaned_row r))
        end))) = row_course stem r.
Proof.
  unfold cleaned_row, row_course, tags_of_row, course_of_row, get.
  lookup_simpl. destruct (r !! "Difficulty Level") as [[d|]|] eqn:Hd; simpl; [|done..].
  lookup_simpl. by rewrite Hd.
Qed.

Lemma select_courses_present df :
  Forall (fun c => c ∈ header df) selected_columns ->
  select_courses df = Ok (map course_of_row (rows df)).
Proof.
  intros H. unfold select_courses. rewrite filter_Forall_not; [done|].
  eapply Forall_impl; [exact H|]. naive_solver.
Qed.

Lemma rename_header_keep (c old new : string) hdr :
  c <> old -> c ∈ hdr -> c ∈ map (fun x => if decide (x = old) then new else x) hdr.
Proof.
  intros Hne Hc. eapply list_elem_of_fmap_2'; [exact Hc|]. by rewrite decide_False.
Qed.

Lemma rename_header_new (old new : string) hdr :
  old ∈ hdr -> new ∈ map (fun x => if decide (x = old) then new else x) hdr.
Proof.
  intros Hc. eapply list_elem_of_fmap_2'; [exact Hc|]. by rewrite decide_True.
Qed.

Lemma selected_after_rename df :
  Forall (fun c => c ∈ header df) raw_columns ->
  Forall (fun c => c ∈ map (fun x => if decide (x = "Course Name") then "course_name" else x)
                      (header df ++ (if decide ("tags" ∈ header df) then [] else ["tags"])))
    selected_columns.
Proof.
  unfold raw_columns, selected_columns. rewrite !Forall_cons.
  intros (Hn & Hu & Hd & Hr & Hl & Hde & Hs & _).
  repeat split; try (apply rename_header_keep; [discriminate | set_solver]).
  - apply rename_header_new. set_solver.
  - apply rename_header_keep; [discriminate|]. case_decide; set_solver.
  - constructor.
Qed.

Ltac raw_columns_hyps H :=
  unfold raw_columns in H; rewrite !Forall_cons in H;
  destruct H as (Hname & Huniv & Hdiff & Hrate & Hurl & Hdesc & Hskills & _).

(** The column-at-a-time code equals the row-at-a-time contract: when the
    frame has the seven raw columns, [preprocess_data] turns each row into
    [row_course] of it, in order, and fails exactly at the first row whose
    difficulty is NaN. *)
Theorem preprocess_data_rowwise df :
  Forall (fun c => c ∈ header df) raw_columns ->
  preprocess_data stem df = mapR (row_course stem) (rows df).
Proof.
  intros H. raw_columns_hyps H. unfold preprocess_data.
  rewrite clean_columns_text by (repeat constructor; done). simpl.
  rewrite add_tags_present by (repeat constructor; done). simpl.
  unfold stem_tags. rewrite result_bind_assoc. simpl. rewrite map_map.
  erewrite result_bind_ext; cycle 1.
  { intros cells. rewrite select_courses_present.
    - unfold rename_column. simpl. rewrite map_map. reflexivity.
    - apply selected_after_rename. repeat constructor; done. }
  rewrite mapR_zip_with, mapR_map. apply mapR_ext, Forall_forall. intros r _.
  apply pipeline_row.
Qed.

(** The cleaning of lines 17-18 leaves only lower-case word characters
    and single spaces. *)
Lemma clean_text_clean s : is_clean (clean_text s) = true.
Proof.
  unfold is_clean, clean_text, collapse_ws. apply andb_true_intro. split.
  - apply sall_collapse_go; [done|]. unfold lower. rewrite sall_smap.
    eapply sall_impl; [|apply sall_sfilter]. apply lower_word_or_space.
  - by rewrite (proj1 (collapse_go_no_double _ _)).
Qed.

Lemma clean_text_id t : is_clean t = true -> clean_text t = t.
Proof.
  unfold is_clean, clean_text, collapse_ws, lower, strip_punct.
  intros [Hc Hd]%andb_prop. apply negb_true_iff in Hd.
  rewrite sfilter_id by (eapply sall_impl; [apply clean_char_word_or_space|done]).
  rewrite smap_id.
  - by apply collapse_go_id.
  - eapply sall_impl; [|exact Hc]. intros c Hcc. apply bool_decide_eq_true_2.
    by apply clean_char_lower.
Qed.

(** C19: Lines 17-18 produce a normalised field (lower-case word
    characters and single plain spaces, nothing else), and normalising
    twice is normalising once. *)
Theorem clean_text_is_clean s :
  is_clean (clean_text s) = true /\ clean_text (clean_text s) = clean_text s.
Proof. split; [apply clean_text_clean | apply clean_text_id, clean_text_clean]. Qed.

Lemma clean_columns_Ok cols df df' :
  clean_columns cols df = Ok df' ->
  Forall (fun c => c ∈ header df) cols /\ header df' = header df.
Proof.
  revert df. induction cols as [|col cols IH]; intros df; simpl.
  - intros [= <-]. done.
  - unfold clean_column, column_op. case_decide; simpl; [|done].
    intros (Hf & Hh)%IH. simpl in *. split; [by constructor|done].
Qed.

Lemma add_tags_Ok df df' :
  add_tags df = Ok df' ->
  Forall (fun c => c ∈ header df) tag_columns /\
  header df' = header df ++ (if decide ("tags" ∈ header df) then [] else ["tags"]).
Proof.
  unfold add_tags. destruct (list_find _ _) as [[i c]|] eqn:Hf; [done|].
  intros [= <-]. apply list_find_None in Hf. split; [|done].
  eapply Forall_impl; [exact Hf|]. intros c Hc. by apply dec_stable.
Qed.

Lemma stem_tags_Ok stem' df df' : stem_tags stem' df = Ok df' -> header df' = header df.
Proof. unfold stem_tags. intros H. inv_ok H. by injection H as <-. Qed.

Lemma select_courses_Ok df cs :
  select_courses df = Ok cs -> Forall (fun c => c ∈ header df) selected_columns.
Proof.
  unfold select_courses. destruct (filter _ _) as [|m ms] eqn:Hf; [|done]. intros _.
  apply Forall_forall. intros c Hc. apply dec_stable. intros Hn.
  by apply (filter_nil_not_elem_of _ _ c Hf).
Qed.

Lemma renamed_header_old (c : string) hdr :
  c <> "course_name" -> c <> "tags" ->
  c ∈ map (fun x => if decide (x = "Course Name") then "course_name" else x)
          (hdr ++ (if decide ("tags" ∈ hdr) then [] else ["tags"])) ->
  c ∈ hdr.
Proof.
  intros Hn Ht (x & -> & Hx)%list_elem_of_fmap.
  destruct (decide (x = "Course Name")); [done|].
  apply elem_of_app in Hx as [?|Hx]; [done|]. case_decide; set_solver.
Qed.

(** A build that succeeds had every raw column. *)
Lemma preprocess_data_Ok_header df cs :
  preprocess_data stem df = Ok cs -> Forall (fun c => c ∈ header df) raw_columns.
Proof.
  unfold preprocess_data. intros H.
  inv_ok H. apply clean_columns_Ok in Hc as [Htext Hh1].
  inv_ok H. apply add_tags_Ok in Hc as [Htag Hh2].
  inv_ok H. apply stem_tags_Ok in Hc.
  apply select_courses_Ok in H. unfold rename_column in H. simpl in H.
  rewrite Hc, Hh2, Hh1 in H. rewrite Hh1 in Htag.
  unfold selected_columns in H. rewrite !Forall_cons in H.
  destruct H as (_ & Hu & _ & Hr & Hl & _).
  unfold tag_columns in Htag. rewrite !Forall_cons in Htag.
  destruct Htag as (Hn & Hd & Hde & Hs & _).
  repeat constructor; try done; eapply renamed_header_old; eauto; discriminate.
Qed.

Lemma preprocess_data_rows df cs :
  preprocess_data stem df = Ok cs -> mapR (row_course stem) (rows df) = Ok cs.
Proof.
  intros H. rewrite <- preprocess_data_rowwise; [done|]. by eapply preprocess_data_Ok_header.
Qed.

(** The searched fields of every built course are normalised. *)
Lemma preprocess_data_fields_clean df cs :
  preprocess_data stem df = Ok cs ->
  Forall (fun c => is_clean (course_name c) && is_clean (description c)
                   && is_clean (skills c) = true) cs.
Proof.
  intros H%preprocess_data_rows%mapR_Ok.
  induction H as [|r c rs cs Hr _ IH]; constructor; [|done].
  unfold row_course in Hr. destruct (get r "Difficulty Level"); [|done].
  injection Hr as <-. simpl. by rewrite !clean_text_clean.
Qed.

(** C17: The build succeeds exactly when the frame has the seven raw columns
    and every row passes the row-level contract; its result is then the
    list of [row_course]s. *)
Theorem preprocess_data_Ok_iff df cs :
  preprocess_data stem df = Ok cs <->
  Forall (fun c => c ∈ header df) raw_columns /\ mapR (row_course stem) (rows df) = Ok cs.
Proof.
  split.
  - intros H. split; [by eapply preprocess_data_Ok_header | by apply preprocess_data_rows].
  - intros [Hh H]. by rewrite preprocess_data_rowwise.
Qed.

(** C18: Every course the build produces has a normalised name, description
    and skills field, one course per raw row. *)
Theorem preprocess_data_clean_fields df cs :
  preprocess_data stem df = Ok cs ->
  length cs = length (rows df) /\
  Forall (fun c => is_clean (course_name c) && is_clean (description c)
                   && is_clean (skills c) = true) cs.
Proof.
  intros H. split; [|by eapply preprocess_data_fields_clean].
  by eapply mapR_length, preprocess_data_rows.
Qed.

End Properties.
End PreprocessFacts.

Module PreprocessWitnesses.
Import Preprocess PreprocessFacts.

Local Abbreviation sample_frame :=
  (mk_frame ["Course Name"; "University"; "Difficulty Level"; "Course Rating";
             "Course URL"; "Course Description"; "Skills"]
    [list_to_map [("Course Name", Some "Intro to  Python!"); ("University", Some "X");
                  ("Difficulty Level", Some "Beginner"); ("Course Rating", Some "4.5");
                  ("Course URL", Some "https://example.org");
                  ("Course Description", Some "Learn Python, fast."); ("Skills", Some "Python")]]).

Lemma preprocess_data_clean_fields_witness :
  exists cs, preprocess_data (fun w => w) sample_frame = Ok cs /\
    length cs = 1 /\
    Forall (fun c => is_clean (course_name c) && is_clean (description c)
                     && is_clean (skills c) = true) cs.
Proof.
  eexists. split; [vm_compute; reflexivity|].
  apply (preprocess_data_clean_fields (fun w => w) sample_frame). vm_compute. reflexivity.
Defined.

End PreprocessWitnesses.
