(* ===== verification/Ranking.v ===== *)
(** * Ranking scores: Python's stable [sorted(..., reverse=True)]

    [get_recommendations] (src/main.py, line 67) sorts the pairs
    [(index, score)] of a similarity row with
    [sorted(sim_scores, key=lambda x: x[1], reverse=True)]. Python's sort
    only compares keys with [<], and with [reverse=True] it keeps the
    original order of equal keys. This file states what the sort needs of
    the score type (the class [ScoreOrder] with the laws of a strict weak
    order), models the sort as a stable insertion sort [sort_desc], and
    proves that its result on an enumerated row is the unique permutation
    ranked by score, then by index: any stable sort, Timsort included,
    returns the same list. *)

From S2P Require Import Prelude.

(** What a score type offers the ranking: Python's [<] on keys. *)
Class ScoreOrder (S : Type) := score_lt : S -> S -> bool.

(** The laws that make [<] a strict weak order, as Python's sort assumes;
    [score_lt_neg_trans] says that "not less than" is transitive. *)
Class ScoreOrderLaws (S : Type) `{ScoreOrder S} := {
  score_lt_irrefl : forall a, score_lt a a = false;
  score_lt_trans : forall a b c,
    score_lt a b = true -> score_lt b c = true -> score_lt a c = true;
  score_lt_neg_trans : forall a b c,
    score_lt a b = false -> score_lt b c = false -> score_lt a c = false
}.

(** Python integers compare with [<]. *)
#[export] Instance nat_score_order : ScoreOrder nat := Nat.ltb.

Module Ranking.

(** [enumerate(row)]: each entry with its index. *)
Definition enumerate {A : Type} (row : list A) : list (nat * A) := zip (seq 0 (length row)) row.

Section Sort.
Context {S : Type} `{ScoreOrder S}.

(** Stable insertion by decreasing score: [x] goes before the first
    element whose score is not greater than its own. *)
Fixpoint insert_desc (x : nat * S) (l : list (nat * S)) : list (nat * S) :=
  match l with
  | [] => [x]
  | y :: l' => if score_lt x.2 y.2 then y :: insert_desc x l' else x :: l
  end.

Fixpoint sort_desc (l : list (nat * S)) : list (nat * S) :=
  match l with
  | [] => []
  | x :: l' => insert_desc x (sort_desc l')
  end.

(** The order the ranking must produce: higher score first, and among
    equal scores the lower index first. *)
Definition ranked_before (x y : nat * S) : Prop :=
  score_lt y.2 x.2 = true \/
  (score_lt x.2 y.2 = false /\ score_lt y.2 x.2 = false /\ x.1 < y.1).

End Sort.

Section Enumerate.
Context {A : Type}.

Lemma elem_of_zip_seq (k j : nat) (t : A) (row : list A) :
  (j, t) ∈ zip (seq k (length row)) row <-> k <= j /\ row !! (j - k) = Some t.
Proof.
  revert k. induction row as [|s row IH]; intros k; simpl.
  { split; [set_solver | intros [_ ?]; by rewrite lookup_nil in *]. }
  rewrite elem_of_cons, IH. split.
  - intros [[= -> ->]|[Hk Hl]]; [by rewrite Nat.sub_diag|].
    split; [lia|]. by replace (j - k) with (Datatypes.S (j - Datatypes.S k)) by lia.
  - intros [Hk Hl]. destruct (decide (j = k)) as [->|Hne].
    + rewrite Nat.sub_diag in Hl. simpl in Hl. left. by injection Hl as ->.
    + right. split; [lia|]. by replace (j - k) with (Datatypes.S (j - Datatypes.S k)) in Hl by lia.
Qed.

Lemma elem_of_enumerate (j : nat) (t : A) (row : list A) :
  (j, t) ∈ enumerate row <-> row !! j = Some t.
Proof.
  unfold enumerate. rewrite elem_of_zip_seq, Nat.sub_0_r.
  split; [by intros [_ ?] | intros ?; split; [lia | done]].
Qed.

Lemma enumerate_fmap {B} (f : A -> B) (row : list A) :
  enumerate (f <$> row) = prod_map id f <$> enumerate row.
Proof.
  unfold enumerate. rewrite length_fmap. generalize 0.
  induction row as [|a row IH]; intros k; simpl; [done|]. by rewrite IH.
Qed.

End Enumerate.

Section Perm.
Context {S : Type} `{ScoreOrder S}.

Lemma insert_desc_perm x l : insert_desc x l ≡ₚ x :: l.
Proof.
  induction l as [|y l IH]; simpl; [done|].
  case_match; [|done]. rewrite IH. apply perm_swap.
Qed.

Lemma sort_desc_perm l : sort_desc l ≡ₚ l.
Proof. induction l as [|x l IH]; simpl; [done|]. by rewrite insert_desc_perm, IH. Qed.

End Perm.

(** ** Rescaling the scores

    The ranking reads scores only through [score_lt]. A map [f] of the
    scores that preserves and reflects [<] on the scores that occur
    ([P]) therefore leaves the ranked indices unchanged: ranking the
    mapped row is mapping the ranked row. *)
Section Rescale.
Context {S T : Type} `{ScoreOrder S} `{ScoreOrder T}.
Variables (P : S -> Prop) (f : S -> T).
Hypothesis f_order : forall a b, P a -> P b -> score_lt (f a) (f b) = score_lt a b.

Lemma insert_desc_rescale x l :
  P x.2 -> Forall (fun p => P p.2) l ->
  insert_desc (prod_map id f x) (prod_map id f <$> l) = prod_map id f <$> insert_desc x l.
Proof.
  destruct x as [i a]. intros Hx. induction 1 as [|[j b] l Hy _ IH]; [done|].
  rewrite !fmap_cons. cbn [insert_desc prod_map fst snd id] in *.
  rewrite f_order by done. case_match; [|done].
  rewrite IH, fmap_cons. done.
Qed.

Lemma sort_desc_rescale l :
  Forall (fun p => P p.2) l -> sort_desc (prod_map id f <$> l) = prod_map id f <$> sort_desc l.
Proof.
  induction 1 as [|x l Hx Hl IH]; [done|]. rewrite fmap_cons. cbn [sort_desc]. rewrite IH.
  apply insert_desc_rescale; [done|].
  eapply Permutation_Forall; [symmetry; apply sort_desc_perm|done].
Qed.

Lemma sort_desc_enumerate_rescale row :
  Forall P row -> sort_desc (enumerate (f <$> row)) = prod_map id f <$> sort_desc (enumerate row).
Proof.
  intros Hrow. rewrite enumerate_fmap. apply sort_desc_rescale.
  apply Forall_forall. intros [j t] Hj%elem_of_enumerate. simpl.
  rewrite Forall_lookup in Hrow. eauto.
Qed.

End Rescale.

Section Laws.
Context {S : Type} `{ScoreOrderLaws S}.

Lemma score_lt_asym a b : score_lt a b = true -> score_lt b a = false.
Proof.
  intros Hab. destruct (score_lt b a) eqn:Hba; [|done].
  pose proof (score_lt_trans _ _ _ Hab Hba). by rewrite score_lt_irrefl in *.
Qed.

(** A score tied with [b] and below [a] relates to [a] as [b] does. *)
Lemma score_lt_tie_l a b c :
  score_lt a b = true -> score_lt b c = false -> score_lt c b = false -> score_lt a c = true.
Proof.
  intros Hab Hbc Hcb. destruct (score_lt a c) eqn:Hac; [done|].
  by rewrite (score_lt_neg_trans _ _ _ Hac Hcb) in Hab.
Qed.

Lemma score_lt_tie_r a b c :
  score_lt a b = false -> score_lt b a = false -> score_lt b c = true -> score_lt a c = true.
Proof.
  intros Hab Hba Hbc. destruct (score_lt a c) eqn:Hac; [done|].
  by rewrite (score_lt_neg_trans _ _ _ Hba Hac) in Hbc.
Qed.

Lemma ranked_before_irrefl x : ~ ranked_before x x.
Proof. unfold ranked_before. rewrite score_lt_irrefl. intros [?|(_&_&?)]; [done|lia]. Qed.

Lemma ranked_before_asym x y : ranked_before x y -> ranked_before y x -> False.
Proof.
  unfold ranked_before. intros [Hxy|(Hxy1&Hxy2&Hxy3)] [Hyx|(Hyx1&Hyx2&Hyx3)];
    try congruence; try lia.
  by rewrite score_lt_asym in Hyx.
Qed.

Lemma ranked_before_trans x y z :
  ranked_before x y -> ranked_before y z -> ranked_before x z.
Proof.
  unfold ranked_before. intros [Hxy|(Hxy1&Hxy2&Hxy3)] [Hyz|(Hyz1&Hyz2&Hyz3)].
  - left. eapply score_lt_trans; eauto.
  - left. eapply score_lt_tie_r; eauto.
  - left. eapply score_lt_tie_l; eauto.
  - right. repeat split; [eapply score_lt_neg_trans; eauto.. | lia].
Qed.

Lemma insert_desc_sorted x l :
  StronglySorted ranked_before l -> Forall (fun y => x.1 < y.1) l ->
  StronglySorted ranked_before (insert_desc x l).
Proof.
  induction 1 as [|y l Hs IH Hy]; intros Hx; simpl.
  { repeat constructor. }
  apply Forall_cons in Hx as [Hxy Hxl].
  destruct (score_lt x.2 y.2) eqn:Hlt.
  - constructor; [by apply IH|].
    eapply Permutation_Forall; [symmetry; apply insert_desc_perm|].
    constructor; [by left|done].
  - assert (ranked_before x y) as Hb.
    { unfold ranked_before. destruct (score_lt y.2 x.2); [by left|by right]. }
    constructor; [by constructor|]. constructor; [done|].
    eapply Forall_impl; [exact Hy|]. intros z. by apply ranked_before_trans.
Qed.

(** The model of [sorted(..., reverse=True)] ranks a list whose indices
    increase. *)
Lemma sort_desc_sorted l :
  StronglySorted (fun a b => a.1 < b.1) l -> StronglySorted ranked_before (sort_desc l).
Proof.
  induction 1 as [|x l Hs IH Hx]; simpl; [constructor|].
  apply insert_desc_sorted; [done|].
  eapply Permutation_Forall; [symmetry; apply sort_desc_perm|done].
Qed.

Lemma zip_seq_sorted (k : nat) (row : list S) :
  StronglySorted (fun a b => a.1 < b.1) (zip (seq k (length row)) row).
Proof.
  revert k. induction row as [|s row IH]; intros k; simpl; constructor; [apply IH|].
  apply Forall_forall. intros [j t] Hin.
  apply elem_of_zip_l, list_elem_of_In, in_seq in Hin.
  simpl. lia.
Qed.

Lemma enumerate_sorted (row : list S) : StronglySorted (fun a b => a.1 < b.1) (enumerate row).
Proof. apply zip_seq_sorted. Qed.

(** C3: The sorted score row is the unique ranking: any permutation of the
    enumerated row ordered by decreasing score and, among equal scores, by
    increasing index is [sort_desc] of it. Every stable descending sort,
    CPython's Timsort included, therefore returns [sort_desc]'s result. *)
Theorem sort_desc_unique (row : list S) l :
  l ≡ₚ enumerate row -> StronglySorted ranked_before l ->
  l = sort_desc (enumerate row).
Proof.
  intros Hp Hs. apply (StronglySorted_Permutation_eq ranked_before).
  - apply ranked_before_irrefl.
  - apply ranked_before_asym.
  - done.
  - apply sort_desc_sorted, enumerate_sorted.
  - by rewrite sort_desc_perm.
Qed.

End Laws.

End Ranking.

#[export] Instance nat_score_order_laws : ScoreOrderLaws nat.
Proof.
  split; unfold score_lt, nat_score_order; intros *;
    rewrite ?Nat.ltb_lt, ?Nat.ltb_ge, ?Nat.ltb_irrefl; [done | lia | lia].
Qed.

Module RankingWitnesses.
Import Ranking.

Lemma sort_desc_unique_witness :
  [(1, 5); (2, 5); (0, 3)] ≡ₚ enumerate [3; 5; 5] /\
  StronglySorted ranked_before [(1, 5); (2, 5); (0, 3)] /\
  [(1, 5); (2, 5); (0, 3)] = sort_desc (enumerate [3; 5; 5]).
Proof.
  assert ([(1, 5); (2, 5); (0, 3)] ≡ₚ enumerate [3; 5; 5]) as Hp.
  { apply (bool_decide_unpack _). vm_compute. reflexivity. }
  assert (StronglySorted ranked_before [(1, 5); (2, 5); (0, 3)]) as Hs.
  { unfold ranked_before. apply (bool_decide_unpack _). vm_compute. reflexivity. }
  split; [exact Hp|]. split; [exact Hs|]. exact (sort_desc_unique [3; 5; 5] _ Hp Hs).
Defined.

End RankingWitnesses.
