(* ===== verification/Recommend.v ===== *)
(** * The Recommendation Engine: [get_recommendations]

    Models src/main.py, [get_recommendations] (lines 60-71), over any score
    type with a [ScoreOrder] (the similarity matrix of the build is one, see
    Similarity.v). The course name is resolved to the first row whose
    lower-cased name equals the lower-cased query; that row of the matrix
    is enumerated, ranked with the model of Python's stable descending sort
    (Ranking.v), its first entry dropped and the next six kept
    ([[1:7]]); each kept index is mapped to its course name. Indexing the
    matrix or the table out of range raises [IndexError], which the
    [except] clause turns into a displayed message and an empty list. *)

From S2P Require Import Prelude PyStr Preprocess Ranking.
Import PyStr Preprocess Ranking.

Module Recommend.

Inductive rec_error := IndexError (what : string).

Section Recommend.
Context {S : Type} `{ScoreOrder S}.

(** Lines 62-65: [matches.index[0]], the first row whose lower-cased name
    equals the lower-cased query. The table's index is the [RangeIndex]
    that [read_csv] gave it, so the label is the position. *)
Definition find_course (courses : list course) (name : string) : option nat :=
  fst <$> list_find (fun c => lower (course_name c) = lower name) courses.

(** Lines 66-67: [sorted(list(enumerate(row)), key=..., reverse=True)[1:7]]. *)
Definition sorted_scores (row : list S) : list (nat * S) :=
  take 6 (drop 1 (sort_desc (enumerate row))).

(** Line 68: [courses_df.iloc[i[0]].course_name]. *)
Definition name_at (courses : list course) (p : nat * S) : result rec_error string :=
  match courses !! p.1 with
  | Some c => Ok (course_name c)
  | None => Err (IndexError "single positional indexer is out-of-bounds")
  end.

(** Lines 62-68, the body of the [try]. *)
Definition recommend (courses : list course) (sim : list (list S)) (name : string)
    : result rec_error (list string) :=
  match find_course courses name with
  | None => Ok []
  | Some i =>
      match sim !! i with
      | None => Err (IndexError "index out of bounds for axis 0")
      | Some row => mapR (name_at courses) (sorted_scores row)
      end
  end.

(** Lines 60-71: the names, and the error message the page shows when the
    [except] clause runs. *)
Definition get_recommendations (courses : list course) (sim : list (list S)) (name : string)
    : list string * option string :=
  match recommend courses sim name with
  | Ok names => (names, None)
  | Err (IndexError m) => ([], Some ("Recommendation error: " +:+ m))
  end.

(** A similarity matrix of [n] rows of [n] scores: the shape the build
    produces for a table of [n] courses. *)
Definition square (sim : list (list S)) (n : nat) : Prop :=
  length sim = n /\ Forall (fun row => length row = n) sim.

End Recommend.

Section Properties.
Context {S : Type} `{ScoreOrderLaws S}.

Lemma find_course_None courses name :
  Forall (fun c => lower (course_name c) <> lower name) courses ->
  find_course courses name = None.
Proof. intros Hf. unfold find_course. by rewrite (proj2 (list_find_None _ _) Hf). Qed.

Lemma find_course_Some courses name i :
  find_course courses name = Some i ->
  exists c, courses !! i = Some c /\ lower (course_name c) = lower name.
Proof.
  unfold find_course. destruct (list_find _ _) as [[j c]|] eqn:Hf; [|done].
  intros [= <-]. apply list_find_Some in Hf as (Hc & Hm & _). eauto.
Qed.

Lemma find_course_lower courses name : find_course courses (lower name) = find_course courses name.
Proof. unfold find_course. by rewrite lower_idem. Qed.

Lemma sorted_scores_length (row : list S) : length (sorted_scores row) <= 6.
Proof. unfold sorted_scores. rewrite length_take. lia. Qed.

(** C8: A name that matches no course (case-insensitively) yields an empty
    list and no error message: "no match" is not an error. *)
Theorem get_recommendations_no_match (courses : list course) (sim : list (list S)) name :
  Forall (fun c => lower (course_name c) <> lower name) courses ->
  get_recommendations courses sim name = ([], None).
Proof. intros Hf. unfold get_recommendations, recommend. by rewrite find_course_None. Qed.

(** C12: The query is matched case-insensitively: lower-casing it first does
    not change the answer. *)
Theorem get_recommendations_case_insensitive (courses : list course) (sim : list (list S)) name :
  get_recommendations courses sim (lower name) = get_recommendations courses sim name.
Proof. unfold get_recommendations, recommend. by rewrite find_course_lower. Qed.

(** C9: At most six names are returned. *)
Theorem get_recommendations_at_most_6 (courses : list course) (sim : list (list S)) name :
  length (get_recommendations courses sim name).1 <= 6.
Proof.
  unfold get_recommendations, recommend.
  destruct (find_course _ _) as [i|]; [|simpl; lia].
  destruct (sim !! i) as [row|]; [|simpl; lia].
  destruct (mapR _ _) as [names|[m]] eqn:Hm; simpl; [|lia].
  rewrite (mapR_length _ _ _ Hm). apply sorted_scores_length.
Qed.

Lemma sorted_scores_elem (row : list S) p :
  p ∈ sorted_scores row -> p ∈ enumerate row.
Proof.
  unfold sorted_scores. intros Hp.
  repeat first [apply elem_of_take_sub in Hp | apply elem_of_drop_sub in Hp].
  by rewrite ?sort_desc_perm in Hp.
Qed.

(** A matching name whose row has no more entries than the table has rows
    is answered, through [recommend], with the names of the ranked indices. *)
Lemma recommend_row (courses : list course) (sim : list (list S)) name i row :
  find_course courses name = Some i -> sim !! i = Some row -> length row <= length courses ->
  exists names, recommend courses sim name = Ok names /\
    Forall2 (fun n p => exists c, courses !! p.1 = Some c /\ n = course_name c)
      names (sorted_scores row).
Proof.
  intros Hi Hrow Hlen.
  assert (Forall (fun p => exists n, name_at courses p = Ok n) (sorted_scores row)) as Hall.
  { apply Forall_forall. intros [j t] Hp%sorted_scores_elem%elem_of_enumerate.
    pose proof (lookup_lt_Some _ _ _ Hp) as Hj.
    destruct (lookup_lt_is_Some_2 courses j ltac:(lia)) as [c' Hc'].
    exists (course_name c'). unfold name_at. simpl. by rewrite Hc'. }
  destruct (mapR_Forall_Ok _ _ Hall) as [names Hnames].
  exists names. split.
  - unfold recommend. by rewrite Hi, Hrow, Hnames.
  - apply mapR_Ok in Hnames. apply Forall2_flip. eapply Forall2_impl; [exact Hnames|].
    intros p n. unfold name_at. destruct (courses !! p.1); [|done]. intros [= <-]. eauto.
Qed.

(** A matched pair answers a matching name with the names of the ranked
    indices, through [recommend]. *)
Lemma recommend_square (courses : list course) (sim : list (list S)) name i :
  square sim (length courses) -> find_course courses name = Some i ->
  exists row names,
    sim !! i = Some row /\ recommend courses sim name = Ok names /\
    Forall2 (fun n p => exists c, courses !! p.1 = Some c /\ n = course_name c)
      names (sorted_scores row).
Proof.
  intros [Hlen Hrows] Hi.
  destruct (find_course_Some _ _ _ Hi) as (c & Hc & _).
  destruct (lookup_lt_is_Some_2 sim i) as [row Hrow].
  { rewrite Hlen. by eapply lookup_lt_Some. }
  rewrite Forall_lookup in Hrows.
  destruct (recommend_row courses sim name i row Hi Hrow) as (names & Hrec & Hf).
  { by rewrite (Hrows i row Hrow). }
  by exists row, names.
Qed.

(** C10: With a matched pair of artifacts (a square matrix with one row per
    course), a name that matches a course is answered without error: the
    names returned are those of the ranked indices [sorted_scores], in
    order. *)
Theorem get_recommendations_square (courses : list course) (sim : list (list S)) name i :
  square sim (length courses) -> find_course courses name = Some i ->
  exists row names,
    sim !! i = Some row /\ get_recommendations courses sim name = (names, None) /\
    Forall2 (fun n p => exists c, courses !! p.1 = Some c /\ n = course_name c)
      names (sorted_scores row).
Proof.
  intros Hsq Hi. destruct (recommend_square courses sim name i Hsq Hi) as (row & names & Hrow & Hrec & Hf).
  exists row, names. unfold get_recommendations. by rewrite Hrec.
Qed.

(** C11: With a mismatched pair, a matching name whose row is missing from
    the matrix gives no names and an error message, not a failure at
    load time. *)
Theorem get_recommendations_mismatch (courses : list course) (sim : list (list S)) name i :
  find_course courses name = Some i -> length sim <= i ->
  exists m, get_recommendations courses sim name = ([], Some m).
Proof.
  intros Hi Hlen. unfold get_recommendations, recommend.
  rewrite Hi, lookup_ge_None_2 by done. by eexists.
Qed.

(** C5: The names kept are the best ranked: every kept entry is ranked
    before every entry that is neither kept nor the dropped first one, and
    the kept entries are in ranking order. *)
Theorem sorted_scores_top (row : list S) p q :
  p ∈ sorted_scores row -> q ∈ enumerate row -> q ∉ sorted_scores row ->
  head (sort_desc (enumerate row)) <> Some q ->
  StronglySorted ranked_before (sorted_scores row) /\ ranked_before p q.
Proof.
  unfold sorted_scores. intros Hp Hq Hnk Hhd.
  pose proof (sort_desc_sorted _ (enumerate_sorted row)) as Hs.
  rewrite <- sort_desc_perm in Hq.
  destruct (sort_desc (enumerate row)) as [|h rest]; [set_solver|].
  simpl in *. apply StronglySorted_inv in Hs as [Hs _].
  rewrite <- (take_drop 6 rest) in Hs.
  split; [by eapply StronglySorted_app_inv_l|].
  eapply StronglySorted_app_inv; [exact Hs | exact Hp |].
  apply elem_of_cons in Hq as [->|Hq]; [done|].
  rewrite <- (take_drop 6 rest) in Hq. apply elem_of_app in Hq as [?|?]; [done|done].
Qed.

(** In a list sorted by [ranked_before], an element ranked before every
    other element is the head. *)
Lemma sorted_first (L : list (nat * S)) x :
  StronglySorted ranked_before L -> x ∈ L ->
  (forall y, y ∈ L -> y <> x -> ranked_before x y) -> exists L', L = x :: L'.
Proof.
  intros Hs Hx Hb. destruct L as [|y L']; [set_solver|].
  apply elem_of_cons in Hx as [->|Hx]; [eauto|].
  apply StronglySorted_inv in Hs as [_ Hf]. rewrite Forall_forall in Hf.
  exfalso. apply (ranked_before_asym y x (Hf x Hx)). apply Hb; [set_solver|].
  intros ->. by apply (ranked_before_irrefl x), Hf.
Qed.

(** An entry of the row ranked before every other entry heads the
    ranking. *)
Lemma sort_desc_first (row : list S) i s :
  row !! i = Some s ->
  (forall k t, row !! k = Some t -> k <> i -> ranked_before (i, s) (k, t)) ->
  exists rest, sort_desc (enumerate row) = (i, s) :: rest.
Proof.
  intros Hi Hb. apply sorted_first; [apply sort_desc_sorted, enumerate_sorted| |].
  - by rewrite sort_desc_perm, elem_of_enumerate.
  - intros [k t] Hk Hne. rewrite sort_desc_perm, elem_of_enumerate in Hk. apply Hb; [done|].
    intros ->. congruence.
Qed.

(** An entry that beats every other entry of the row heads the ranking. *)
Lemma sort_desc_head_max (row : list S) i s rest :
  row !! i = Some s ->
  (forall j t, row !! j = Some t -> j <> i -> score_lt t s = true) ->
  forall h, sort_desc (enumerate row) = h :: rest -> h = (i, s).
Proof.
  intros Hi Hmax h Hl. destruct (sort_desc_first row i s Hi) as [rest' Hl'].
  - intros k t Hk Hne. left. by apply (Hmax k t).
  - congruence.
Qed.

(** When an earlier entry [i] ties entry [j] and every other entry scores
    strictly lower, [i] heads the ranking and [j] heads the slice [[1:7]]. *)
Lemma sorted_scores_tie (row : list S) i j s :
  row !! i = Some s -> row !! j = Some s -> i < j ->
  (forall k t, row !! k = Some t -> k <> i -> k <> j -> score_lt t s = true) ->
  head (sorted_scores row) = Some (j, s).
Proof.
  intros Hi Hj Hij Hlow.
  destruct (sort_desc_first row i s Hi) as [L1 HL].
  { intros k t Hk Hne. destruct (decide (k = j)) as [->|Hkj].
    - rewrite Hj in Hk. injection Hk as <-. right. cbn [fst snd]. rewrite score_lt_irrefl. repeat split; lia.
    - left. by apply (Hlow k t). }
  pose proof (sort_desc_sorted _ (enumerate_sorted row)) as Hs. rewrite HL in Hs.
  apply StronglySorted_inv in Hs as [Hs Hf]. rewrite Forall_forall in Hf.
  assert (forall p, p ∈ L1 -> p ∈ enumerate row) as Hsub
    by (intros p Hp; rewrite <- sort_desc_perm, HL; set_solver).
  destruct (sorted_first L1 (j, s) Hs) as [L2 HL1].
  - apply elem_of_enumerate in Hj. rewrite <- sort_desc_perm, HL in Hj.
    apply elem_of_cons in Hj as [[= ->]|Hj]; [lia|done].
  - intros [k t] Hk Hne. pose proof (Hsub _ Hk) as Hkt%elem_of_enumerate.
    destruct (decide (k = i)) as [->|Hki].
    { rewrite Hi in Hkt. injection Hkt as <-. exfalso. by apply (ranked_before_irrefl (i, s)), Hf. }
    destruct (decide (k = j)) as [->|Hkj]; [congruence|]. left. by apply (Hlow k t).
  - unfold sorted_scores. by rewrite HL, HL1.
Qed.

(** C7: A course can be recommended to itself. When an earlier course [i]
    ties the queried course [j] at the top of row [j] (two courses with the
    same tag words both score 1) and every other course scores strictly
    lower, the stable sort ranks [i] first, the slice [[1:7]] drops it as
    if it were the self-match, and the queried course's own name heads the
    recommendations. *)
Theorem get_recommendations_self_tie (courses : list course) (sim : list (list S)) name j row i s :
  find_course courses name = Some j -> sim !! j = Some row -> length row <= length courses ->
  row !! i = Some s -> row !! j = Some s -> i < j ->
  (forall k t, row !! k = Some t -> k <> i -> k <> j -> score_lt t s = true) ->
  exists c, courses !! j = Some c /\ lower (course_name c) = lower name /\
    head (get_recommendations courses sim name).1 = Some (course_name c) /\
    (get_recommendations courses sim name).2 = None.
Proof.
  intros Hf Hrow Hlen Hi Hj Hij Hlow.
  destruct (recommend_row courses sim name j row Hf Hrow Hlen) as (names & Hrec & Hnames).
  destruct (find_course_Some _ _ _ Hf) as (c & Hc & Hname).
  pose proof (sorted_scores_tie row i j s Hi Hj Hij Hlow) as Hhd.
  exists c. split; [done|]. split; [done|]. unfold get_recommendations. rewrite Hrec.
  split; [|done]. destruct (sorted_scores row) as [|p ps]; [done|]. injection Hhd as ->.
  inversion Hnames as [|n p' ns ps' (c' & Hc' & ->) _]; subst. simpl in *. congruence.
Qed.

(** C6: When the queried course's own score beats every other score of its
    row (its self-similarity is strictly the highest), the course itself
    is not among the recommended indices. *)
Theorem sorted_scores_self_excluded (row : list S) i s :
  row !! i = Some s ->
  (forall j t, row !! j = Some t -> j <> i -> score_lt t s = true) ->
  i ∉ (sorted_scores row).*1.
Proof.
  intros Hi Hmax ([i' t] & Heq & Hin)%list_elem_of_fmap. simpl in Heq. subst i'.
  unfold sorted_scores in Hin.
  pose proof (sort_desc_sorted _ (enumerate_sorted row)) as Hs.
  destruct (sort_desc (enumerate row)) as [|h rest] eqn:Hl; [set_solver|].
  rewrite (sort_desc_head_max row i s rest Hi Hmax h Hl) in Hs.
  simpl in Hin. apply elem_of_take_sub in Hin.
  assert ((i, t) ∈ enumerate row) as Ht by (rewrite <- sort_desc_perm, Hl; set_solver).
  apply elem_of_enumerate in Ht. rewrite Hi in Ht. injection Ht as <-.
  apply StronglySorted_inv in Hs as [_ Hf]. rewrite Forall_forall in Hf.
  by apply (ranked_before_irrefl (i, s)), Hf.
Qed.

End Properties.

(** ** The answer depends on the order of the scores only *)
Section Rescale.
Context {S T : Type} `{ScoreOrder S} `{ScoreOrder T}.
Variables (P : S -> Prop) (f : S -> T).
Hypothesis f_order : forall a b, P a -> P b -> score_lt (f a) (f b) = score_lt a b.

Lemma sorted_scores_rescale row :
  Forall P row -> sorted_scores (f <$> row) = prod_map id f <$> sorted_scores row.
Proof.
  intros Hrow. unfold sorted_scores.
  rewrite ?fmap_take, ?fmap_drop, <- ?(sort_desc_enumerate_rescale P f f_order row Hrow),
    ?enumerate_fmap. done.
Qed.

(** Mapping every entry of the matrix by [f] does not change any answer of
    [get_recommendations]. *)
Lemma get_recommendations_rescale courses (sim : list (list S)) name :
  Forall (Forall P) sim ->
  get_recommendations (S:=T) courses ((fun row : list S => f <$> row) <$> sim) name =
  get_recommendations (S:=S) courses sim name.
Proof.
  intros Hsim. unfold get_recommendations, recommend.
  destruct (find_course courses name) as [i|]; [|done].
  rewrite list_lookup_fmap. destruct (sim !! i) as [row|] eqn:Hrow; [|done]. cbn [fmap option_fmap option_map].
  rewrite sorted_scores_rescale by (rewrite Forall_lookup in Hsim; eauto).
  rewrite mapR_map. done.
Qed.

End Rescale.

End Recommend.

Module RecommendWitnesses.
Import Recommend.

Local Abbreviation sample_courses :=
  (map (fun n => mk_course n None (Some "Beginner") None None "" "" "") ["python"; "java"; "sql"]).

Local Abbreviation sample_sim := [[9; 7; 3]; [7; 9; 4]; [3; 4; 9]].

Lemma get_recommendations_no_match_witness :
  Forall (fun c => lower (course_name c) <> lower "Rust") sample_courses /\
  get_recommendations sample_courses sample_sim "Rust" = ([], None).
Proof.
  assert (Forall (fun c => lower (course_name c) <> lower "Rust") sample_courses) as H.
  { apply (bool_decide_unpack _). vm_compute. reflexivity. }
  split; [exact H|]. exact (get_recommendations_no_match sample_courses sample_sim "Rust" H).
Defined.

Lemma get_recommendations_square_witness :
  exists row names, sample_sim !! 0 = Some row /\
    get_recommendations sample_courses sample_sim "Python" = (names, None) /\
    Forall2 (fun n p => exists c, sample_courses !! p.1 = Some c /\ n = course_name c)
      names (sorted_scores row).
Proof.
  apply (get_recommendations_square sample_courses sample_sim "Python" 0).
  - apply (bool_decide_unpack _). vm_compute. reflexivity.
  - vm_compute. reflexivity.
Defined.

Lemma get_recommendations_mismatch_witness :
  exists m, get_recommendations sample_courses [[9; 7; 3]] "SQL" = ([], Some m).
Proof.
  apply (get_recommendations_mismatch sample_courses [[9; 7; 3]] "SQL" 2).
  - vm_compute. reflexivity.
  - simpl. lia.
Defined.

Lemma sorted_scores_top_witness :
  StronglySorted ranked_before (sorted_scores [9; 8; 7; 6; 5; 4; 3; 2; 1]) /\
  ranked_before (1, 8) (7, 2).
Proof.
  apply (sorted_scores_top [9; 8; 7; 6; 5; 4; 3; 2; 1] (1, 8) (7, 2));
    apply (bool_decide_unpack _); vm_compute; reflexivity.
Defined.

Lemma get_recommendations_self_tie_witness :
  exists c, sample_courses !! 1 = Some c /\ lower (course_name c) = lower "Java" /\
    head (get_recommendations sample_courses [[9; 9; 3]; [9; 9; 3]; [3; 3; 9]] "Java").1 =
      Some (course_name c) /\
    (get_recommendations sample_courses [[9; 9; 3]; [9; 9; 3]; [3; 3; 9]] "Java").2 = None.
Proof.
  apply (get_recommendations_self_tie sample_courses _ "Java" 1 [9; 9; 3] 0 9);
    [vm_compute; reflexivity | reflexivity | simpl; lia | reflexivity | reflexivity | lia |].
  intros k t Hk Hk0 Hk1. destruct k as [|[|[|k]]]; [done|done| |simpl in Hk; by rewrite ?lookup_nil in Hk].
  simpl in Hk. by injection Hk as <-.
Defined.

Lemma sorted_scores_self_excluded_witness : 0 ∉ (sorted_scores [9; 7; 3]).*1.
Proof.
  apply (sorted_scores_self_excluded [9; 7; 3] 0 9); [reflexivity|].
  intros j t Hj Hne. destruct j as [|[|[|j]]]; [done| | |]; simpl in Hj.
  - by injection Hj as <-.
  - by injection Hj as <-.
  - by rewrite lookup_nil in Hj.
Defined.

End RecommendWitnesses.
