(* ===== verification/Vectorizer.v ===== *)
(** * The Vectorizer: [CountVectorizer(max_features=5000, stop_words='english')]

    Models line 52-53 of src/CourseRecommendationSystem.py,
    [cv.fit_transform(df['tags']).toarray()], following scikit-learn's
    [CountVectorizer] with the arguments the code passes:
    - [analyze]: lower-case the document, take the tokens of the pattern
      [(?u)\b\w\w+\b] (maximal runs of two or more word characters) and
      drop the stop words;
    - [sorted_vocabulary]: the distinct tokens of the corpus in code-point
      order ([_sort_features]);
    - [limit_features]: when there are more than [max_features] terms,
      keep the [max_features] terms of highest corpus frequency, still in
      alphabetical order ([_limit_features]); the ranking by frequency is
      the stable descending sort of Ranking.v, so equal frequencies are
      broken alphabetically;
    - [fit_transform]: the count vector of every document over the kept
      vocabulary, or [ValueError] when the corpus has no token at all.
    The stop-word list (scikit-learn's [ENGLISH_STOP_WORDS]) is the
    parameter [is_stop] of the section. *)

From S2P Require Import Prelude PyStr Ranking.
Import PyStr Ranking.

Module Vectorizer.

Inductive vec_error := ValueError (what : string).

(** [max_features=5000] (line 52). *)
Definition code_max_features : nat := 5000.

Section CountVectorizer.

(** [w in ENGLISH_STOP_WORDS]. *)
Variable is_stop : string -> bool.

(** The [max_features] argument of the constructor; line 52 passes 5000
    ([code_max_features]). *)
Variable max_features : nat.

(** [build_analyzer()]: lower-case, tokenize, remove stop words. *)
Definition tokenize (doc : string) : list string :=
  filter (fun w => 2 <= String.length w) (runs is_word doc).

Definition analyze (doc : string) : list string :=
  filter (fun w => is_stop w = false) (tokenize (lower doc)).

Definition count (t : string) (ws : list string) : nat :=
  length (filter (fun w => w = t) ws).

Definition corpus_tokens (docs : list string) : list string := concat (map analyze docs).

(** [_count_vocab] then [_sort_features]. *)
Definition sorted_vocabulary (docs : list string) : list string :=
  merge_sort String.le (remove_dups (corpus_tokens docs)).

(** Corpus frequency of each term ([X.sum(axis=0)]). *)
Definition term_counts (docs : list string) (terms : list string) : list nat :=
  map (fun t => count t (corpus_tokens docs)) terms.

(** [_limit_features]: the [limit] most frequent terms, kept in their
    alphabetical order. *)
Definition limit_features (limit : nat) (terms : list string) (tfs : list nat) : list string :=
  if decide (length terms <= limit) then terms
  else
    let kept := (take limit (sort_desc (enumerate tfs))).*1 in
    (filter (fun p => p.1 ∈ kept) (enumerate terms)).*2.

Definition fit_vocabulary (docs : list string) : result vec_error (list string) :=
  match sorted_vocabulary docs with
  | [] => Err (ValueError "empty vocabulary; perhaps the documents only contain stop words")
  | terms => Ok (limit_features max_features terms (term_counts docs terms))
  end.

(** The count vector of one document over the vocabulary. *)
Definition transform (vocab : list string) (doc : string) : list nat :=
  map (fun t => count t (analyze doc)) vocab.

(** Line 53: [cv.fit_transform(df['tags']).toarray()]. *)
Definition fit_transform (docs : list string) : result vec_error (list (list nat)) :=
  let* vocab := fit_vocabulary docs in
  Ok (map (transform vocab) docs).

End CountVectorizer.


Section Properties.
Variables (is_stop : string -> bool) (max_features : nat).

Lemma enumerate_snd {A} (l : list A) : (enumerate l).*2 = l.
Proof. unfold enumerate. apply snd_zip. by rewrite length_seq. Qed.

Lemma enumerate_fst {A} (l : list A) : (enumerate l).*1 = seq 0 (length l).
Proof. unfold enumerate. apply fst_zip. by rewrite length_seq. Qed.

Lemma limit_features_sublist limit terms tfs :
  limit_features limit terms tfs `sublist_of` terms.
Proof.
  unfold limit_features. case_decide; [done|].
  rewrite <- (enumerate_snd terms) at 2. apply fmap_sublist, sublist_filter.
Qed.

Lemma sorted_vocabulary_perm docs :
  sorted_vocabulary is_stop docs ≡ₚ remove_dups (corpus_tokens is_stop docs).
Proof. apply merge_sort_Permutation. Qed.

Lemma elem_of_sorted_vocabulary docs t :
  t ∈ sorted_vocabulary is_stop docs <-> t ∈ corpus_tokens is_stop docs.
Proof. by rewrite sorted_vocabulary_perm, elem_of_remove_dups. Qed.

Lemma sorted_vocabulary_NoDup docs : NoDup (sorted_vocabulary is_stop docs).
Proof. rewrite sorted_vocabulary_perm. apply NoDup_remove_dups. Qed.

Lemma sorted_vocabulary_sorted docs : StronglySorted String.le (sorted_vocabulary is_stop docs).
Proof. apply StronglySorted_merge_sort; apply _. Qed.

Lemma corpus_token_wf docs t :
  t ∈ corpus_tokens is_stop docs -> 2 <= String.length t /\ is_stop t = false.
Proof.
  unfold corpus_tokens. intros Hin.
  apply list_elem_of_In, in_concat in Hin as (ws & Hdoc & Hws).
  apply in_map_iff in Hdoc as (d & <- & _). apply list_elem_of_In in Hws.
  unfold analyze, tokenize in Hws. apply list_elem_of_filter in Hws as [Hs Hws].
  apply list_elem_of_filter in Hws as [Hl _]. done.
Qed.

Lemma fit_vocabulary_Ok docs vocab :
  fit_vocabulary is_stop max_features docs = Ok vocab ->
  sorted_vocabulary is_stop docs <> [] /\
  vocab = limit_features max_features (sorted_vocabulary is_stop docs)
            (term_counts is_stop docs (sorted_vocabulary is_stop docs)).
Proof.
  unfold fit_vocabulary. intros H.
  destruct (sorted_vocabulary is_stop docs) as [|t ts]; [done|]. by injection H as <-.
Qed.

Lemma length_enumerate {A} (l : list A) : length (enumerate l) = length l.
Proof. by rewrite <- (length_fmap fst), enumerate_fst, length_seq. Qed.

Lemma sort_desc_fst (tfs : list nat) : (sort_desc (enumerate tfs)).*1 ≡ₚ seq 0 (length tfs).
Proof. by rewrite sort_desc_perm, enumerate_fst. Qed.

(** The positions [limit_features] keeps: distinct, in range, and as many
    as the limit allows. *)
Lemma kept_positions (limit : nat) (tfs : list nat) :
  let K := (take limit (sort_desc (enumerate tfs))).*1 in
  NoDup K /\ (forall j, j ∈ K -> j < length tfs) /\ length K = min limit (length tfs).
Proof.
  intros K. assert (K `sublist_of` (sort_desc (enumerate tfs)).*1) as Hsub
    by apply fmap_sublist, sublist_take.
  split; [|split].
  - eapply sublist_NoDup; [|exact Hsub]. rewrite sort_desc_fst. apply NoDup_seq.
  - intros j Hj. eapply elem_of_sublist in Hj; [|exact Hsub].
    rewrite sort_desc_fst in Hj. apply list_elem_of_In, in_seq in Hj. lia.
  - unfold K. rewrite length_fmap, length_take.
    by rewrite (Permutation_length (sort_desc_perm _)), length_enumerate.
Qed.

Lemma limit_features_length limit terms tfs :
  length tfs = length terms ->
  length (limit_features limit terms tfs) = min limit (length terms).
Proof.
  intros Hlen. unfold limit_features. case_decide; [lia|].
  destruct (kept_positions limit tfs) as (Hnd & Hlt & HK).
  set (K := (take limit (sort_desc (enumerate tfs))).*1) in *.
  assert ((filter (fun p => p.1 ∈ K) (enumerate terms)).*1 =
          filter (fun j => j ∈ K) (enumerate terms).*1) as Hf.
  { exact (fmap_fst_filter (fun j => j ∈ K) (enumerate terms)). }
  rewrite length_fmap, <- (length_fmap fst), Hf, enumerate_fst, <- Hlen, <- HK.
  apply Permutation_length, NoDup_Permutation; [apply NoDup_filter, NoDup_seq | done |].
  intros j. rewrite list_elem_of_filter. split; [naive_solver|].
  intros Hj. split; [done|]. apply list_elem_of_In, in_seq. specialize (Hlt j Hj). lia.
Qed.

Section Limit.
Variables (limit : nat) (terms : list string) (tfs : list nat).
Let K := (take limit (sort_desc (enumerate tfs))).*1.

Lemma limit_features_pos t :
  ~ length terms <= limit -> t ∈ limit_features limit terms tfs ->
  exists j, terms !! j = Some t /\ j ∈ K.
Proof.
  unfold limit_features. intros Hgt. rewrite decide_False by done.
  intros ([j t'] & -> & Hin)%list_elem_of_fmap. apply list_elem_of_filter in Hin as [HK Hin].
  apply elem_of_enumerate in Hin. eauto.
Qed.

Lemma limit_features_keeps k u :
  ~ length terms <= limit -> terms !! k = Some u -> k ∈ K -> u ∈ limit_features limit terms tfs.
Proof.
  unfold limit_features. intros Hgt Hk HkK. rewrite decide_False by done.
  apply list_elem_of_fmap. exists (k, u). split; [done|].
  apply list_elem_of_filter. split; [done|]. by apply elem_of_enumerate.
Qed.

(** A kept position is ranked before a dropped one. *)
Lemma kept_ranked_before j k a b :
  tfs !! j = Some a -> tfs !! k = Some b -> j ∈ K -> k ∉ K -> ranked_before (j, a) (k, b).
Proof.
  intros Ha Hb Hj Hk. unfold K in *.
  apply list_elem_of_fmap in Hj as ([j' a'] & Hjj & Hp). simpl in Hjj. subst j'.
  assert ((j, a') ∈ enumerate tfs) as Ha'.
  { rewrite <- sort_desc_perm. by eapply elem_of_take_sub. }
  apply elem_of_enumerate in Ha'. rewrite Ha in Ha'. injection Ha' as <-.
  pose proof (sort_desc_sorted _ (enumerate_sorted tfs)) as Hs.
  rewrite <- (take_drop limit (sort_desc (enumerate tfs))) in Hs.
  eapply StronglySorted_app_inv; [exact Hs | exact Hp |].
  apply elem_of_enumerate in Hb. rewrite <- sort_desc_perm in Hb.
  rewrite <- (take_drop limit (sort_desc (enumerate tfs))) in Hb.
  apply elem_of_app in Hb as [Hb|Hb]; [|done].
  exfalso. apply Hk, list_elem_of_fmap. by exists (k, b).
Qed.

End Limit.

Lemma ranked_before_nat_le (j k a b : nat) : ranked_before (j, a) (k, b) -> b <= a.
Proof.
  unfold ranked_before, score_lt, nat_score_order. simpl.
  rewrite !Nat.ltb_lt, !Nat.ltb_ge. lia.
Qed.

Lemma term_counts_lookup docs terms j t :
  terms !! j = Some t -> term_counts is_stop docs terms !! j = Some (count t (corpus_tokens is_stop docs)).
Proof. intros Hj. unfold term_counts. by rewrite list_lookup_fmap, Hj. Qed.

(** C21: The vocabulary keeps the most frequent terms: a corpus token left
    out of it occurs in the corpus no more often than any term kept. *)
Theorem fit_vocabulary_top docs vocab t u :
  fit_vocabulary is_stop max_features docs = Ok vocab -> t ∈ vocab ->
  u ∈ corpus_tokens is_stop docs -> u ∉ vocab ->
  count u (corpus_tokens is_stop docs) <= count t (corpus_tokens is_stop docs).
Proof.
  intros [_ ->]%fit_vocabulary_Ok Ht Hu Hnu.
  set (terms := sorted_vocabulary is_stop docs) in *.
  apply elem_of_sorted_vocabulary in Hu. fold terms in Hu.
  destruct (decide (length terms <= max_features)) as [Hle|Hgt].
  { exfalso. apply Hnu. unfold limit_features. by rewrite decide_True. }
  destruct (limit_features_pos _ _ _ t Hgt Ht) as (j & Hj & HjK).
  apply list_elem_of_lookup in Hu as [k Hk].
  eapply ranked_before_nat_le, kept_ranked_before;
    [by apply term_counts_lookup | by apply term_counts_lookup | done |].
  intros HkK. by apply Hnu, (limit_features_keeps _ _ _ k).
Qed.

(** C20: The vocabulary has [min 5000 d] terms, where [d] is the number of
    distinct tokens of the corpus ([V' = min(V, distinct-token-count)]). *)
Theorem fit_vocabulary_length docs vocab :
  fit_vocabulary is_stop max_features docs = Ok vocab ->
  length vocab = min max_features (length (remove_dups (corpus_tokens is_stop docs))).
Proof.
  intros [_ ->]%fit_vocabulary_Ok. rewrite limit_features_length.
  - by rewrite (Permutation_length (sorted_vocabulary_perm _)).
  - unfold term_counts. by rewrite length_map.
Qed.

(** C22: The vocabulary the vectorizer keeps is a set of corpus tokens in
    alphabetical order: no duplicates, each of at least two characters and
    none of them a stop word. *)
Theorem fit_vocabulary_wf docs vocab :
  fit_vocabulary is_stop max_features docs = Ok vocab ->
  NoDup vocab /\ StronglySorted String.le vocab /\
  Forall (fun t => t ∈ corpus_tokens is_stop docs /\ 2 <= String.length t /\ is_stop t = false)
    vocab.
Proof.
  intros [_ ->]%fit_vocabulary_Ok.
  pose proof (limit_features_sublist max_features (sorted_vocabulary is_stop docs)
    (term_counts is_stop docs (sorted_vocabulary is_stop docs))) as Hsub.
  split; [|split].
  - eapply sublist_NoDup; [apply sorted_vocabulary_NoDup | exact Hsub].
  - eapply StronglySorted_sublist; [exact Hsub | apply sorted_vocabulary_sorted].
  - apply Forall_forall. intros t Ht.
    assert (t ∈ corpus_tokens is_stop docs) as Hc.
    { apply elem_of_sorted_vocabulary. by eapply elem_of_sublist. }
    split; [done|]. by apply (corpus_token_wf docs).
Qed.

Lemma sorted_vocabulary_nil docs :
  sorted_vocabulary is_stop docs = [] <-> corpus_tokens is_stop docs = [].
Proof.
  split; intros Hnil.
  - apply elem_of_nil_inv. intros t Ht. apply (elem_of_sorted_vocabulary docs t) in Ht.
    rewrite Hnil in Ht. set_solver.
  - apply elem_of_nil_inv. intros t Ht. apply elem_of_sorted_vocabulary in Ht.
    rewrite Hnil in Ht. set_solver.
Qed.

(** C23: [fit_transform] raises its [ValueError] (empty vocabulary) exactly
    when no document has a token left after lower-casing, the token
    pattern and the stop words; otherwise it fits a vocabulary. *)
Theorem fit_vocabulary_empty_error docs :
  (exists e, fit_vocabulary is_stop max_features docs = Err e) <->
  corpus_tokens is_stop docs = [].
Proof.
  rewrite <- sorted_vocabulary_nil. unfold fit_vocabulary.
  destruct (sorted_vocabulary is_stop docs); split; intros H; try done; [by eexists|].
  by destruct H.
Qed.

End Properties.

End Vectorizer.

Module VectorizerWitnesses.
Import Vectorizer.

Local Abbreviation stop := (fun w : string => bool_decide (w ∈ ["to"; "the"])).
Local Abbreviation docs := ["intro to python"; "python programming"; "the opera opera"].

Lemma fit_vocabulary_wf_witness :
  exists vocab, fit_vocabulary stop 5000 docs = Ok vocab /\
    NoDup vocab /\ StronglySorted String.le vocab /\
    Forall (fun t => t ∈ corpus_tokens stop docs /\ 2 <= String.length t /\ stop t = false) vocab.
Proof.
  eexists. split; [vm_compute; reflexivity|].
  apply (fit_vocabulary_wf stop 5000 docs). vm_compute. reflexivity.
Defined.

Lemma fit_vocabulary_length_witness :
  exists vocab, fit_vocabulary stop 2 docs = Ok vocab /\
    length vocab = min 2 (length (remove_dups (corpus_tokens stop docs))).
Proof.
  eexists. split; [vm_compute; reflexivity|].
  apply (fit_vocabulary_length stop 2 docs). vm_compute. reflexivity.
Defined.

Lemma fit_vocabulary_top_witness :
  fit_vocabulary stop 2 docs = Ok ["opera"; "python"] /\
  count "intro" (corpus_tokens stop docs) <= count "opera" (corpus_tokens stop docs).
Proof.
  assert (fit_vocabulary stop 2 docs = Ok ["opera"; "python"]) as Hv by (vm_compute; reflexivity).
  split; [exact Hv|]. apply (fit_vocabulary_top stop 2 docs ["opera"; "python"]); [exact Hv|..];
    apply (bool_decide_unpack _); vm_compute; reflexivity.
Defined.

End VectorizerWitnesses.
