(* ===== verification/Similarity.v ===== *)
(** * The Similarity Builder: [cosine_similarity(vectors)]

    Models line 55 of src/CourseRecommendationSystem.py. scikit-learn's
    [cosine_similarity(X)] normalises every row of [X] to unit Euclidean
    length (a zero row stays zero) and returns [X X^T]: entry [(i, j)] is
    [dot(x_i, x_j) / (|x_i| |x_j|)], and [0] when either row is zero.

    The count vectors are non-negative, so every entry is non-negative and
    is determined by its square, the rational
    [dot(x_i, x_j)^2 / (|x_i|^2 |x_j|^2)]; the square root is monotone, so
    comparing squares compares cosines. The model [cosine_sq] computes that
    square exactly in [Q]; the float rounding of the real computation is not
    modelled. [Q] is ordered for the recommendation's sort by the instance
    [q_score_order] below. *)

From S2P Require Import Prelude Ranking.
From Stdlib Require Import QArith.

(** Scores are compared as Python compares floats: [a < b]. *)
#[export] Instance q_score_order : ScoreOrder Q := fun a b => negb (Qle_bool b a).

Module Similarity.

(** The dot product of two count vectors. *)
Definition dot (u v : list nat) : Z :=
  foldr Z.add 0%Z (zip_with (fun a b => Z.of_nat a * Z.of_nat b)%Z u v).

(** The squared Euclidean norm. *)
Definition sqnorm (u : list nat) : Z := dot u u.

(** The square of [cosine_similarity]'s entry for rows [u] and [v]. *)
Definition cosine_sq (u v : list nat) : Q :=
  let nn := (sqnorm u * sqnorm v)%Z in
  if Z.eqb nn 0 then 0%Q else Qmake (dot u v * dot u v) (Z.to_pos nn).

(** Line 55: the [N x N] matrix over the rows of [X]. *)
Definition similarity_matrix (X : list (list nat)) : list (list Q) :=
  map (fun u => map (fun v => cosine_sq u v) X) X.

Section Properties.

Lemma dot_cons a u b v :
  dot (a :: u) (b :: v) = (Z.of_nat a * Z.of_nat b + dot u v)%Z.
Proof. reflexivity. Qed.

Lemma dot_nil_l v : dot [] v = 0%Z.
Proof. reflexivity. Qed.

Lemma dot_nil_r u : dot u [] = 0%Z.
Proof. by destruct u. Qed.

Lemma dot_comm u v : dot u v = dot v u.
Proof.
  revert v. induction u as [|a u IH]; intros [|b v]; try done.
  rewrite !dot_cons, IH. lia.
Qed.

Lemma dot_nonneg u v : (0 <= dot u v)%Z.
Proof.
  revert v. induction u as [|a u IH]; intros [|b v]; try done.
  rewrite dot_cons. specialize (IH v). nia.
Qed.

(** From [p^2 <= q^2] and [0 <= q] follows [p <= q]. *)
Lemma Z_le_of_sq_le p q : (0 <= q)%Z -> (p * p <= q * q)%Z -> (p <= q)%Z.
Proof.
  intros Hq Hpq. destruct (Z.le_gt_cases p q) as [?|Hgt]; [done|].
  pose proof (Z.square_lt_mono_nonneg q p Hq Hgt). lia.
Qed.

(** One step of Cauchy-Schwarz: the cross term is bounded by the two
    mixed products. *)
Lemma cs_cross x y D Nu Nv :
  (0 <= Nu)%Z -> (0 <= Nv)%Z -> (D * D <= Nu * Nv)%Z ->
  (2 * x * y * D <= x * x * Nv + y * y * Nu)%Z.
Proof.
  intros Hu Hv HD. apply Z_le_of_sq_le; [nia|].
  assert ((x * y * D) * (x * y * D) <= (x * x * y * y) * (Nu * Nv))%Z as H1.
  { replace ((x * y * D) * (x * y * D))%Z with ((x * x * y * y) * (D * D))%Z by ring.
    apply Z.mul_le_mono_nonneg_l; [nia | done]. }
  assert (0 <= (x * x * Nv - y * y * Nu) * (x * x * Nv - y * y * Nu))%Z as H2
    by apply Z.square_nonneg.
  nia.
Qed.

(** Cauchy-Schwarz for count vectors. *)
Lemma cauchy_schwarz u v : (dot u v * dot u v <= sqnorm u * sqnorm v)%Z.
Proof.
  unfold sqnorm. revert v. induction u as [|a u IH]; intros [|b v].
  - done.
  - rewrite !dot_nil_l. lia.
  - rewrite !dot_nil_r. lia.
  - rewrite !dot_cons. specialize (IH v).
    pose proof (dot_nonneg u u). pose proof (dot_nonneg v v).
    pose proof (cs_cross (Z.of_nat a) (Z.of_nat b) (dot u v) (dot u u) (dot v v)).
    nia.
Qed.

Lemma sqnorm_zero u : sqnorm u = 0%Z <-> Forall (fun a => a = 0%nat) u.
Proof.
  unfold sqnorm. induction u as [|a u IH]; [split; [constructor|done]|].
  rewrite dot_cons, Forall_cons, <- IH. pose proof (dot_nonneg u u). nia.
Qed.

(** C14: The similarity matrix is symmetric. *)
Theorem cosine_sq_sym u v : cosine_sq u v = cosine_sq v u.
Proof. unfold cosine_sq. by rewrite dot_comm, Z.mul_comm. Qed.

(** C13: Every similarity lies in [[0, 1]] (its square does, and the
    similarity is the non-negative square root). *)
Theorem cosine_sq_bounds u v : (0 <= cosine_sq u v <= 1)%Q.
Proof.
  unfold cosine_sq. pose proof (cauchy_schwarz u v) as Hcs.
  pose proof (dot_nonneg u u). pose proof (dot_nonneg v v). unfold sqnorm in *.
  destruct (Z.eqb_spec (dot u u * dot v v) 0) as [|Hnz]; [split; discriminate|].
  unfold Qle. simpl. rewrite Z2Pos.id by lia. nia.
Qed.

(** C15: The diagonal: a course's similarity with itself is exactly 1,
    unless its count vector is zero (an empty or all-stop-word tag), where
    it is 0. *)
Theorem cosine_sq_diag u :
  (Forall (fun a => a = 0%nat) u -> cosine_sq u u = 0%Q) /\
  (~ Forall (fun a => a = 0%nat) u -> (cosine_sq u u == 1)%Q).
Proof.
  rewrite <- sqnorm_zero. unfold cosine_sq. split.
  - intros ->. done.
  - intros Hnz. pose proof (dot_nonneg u u). unfold sqnorm in *.
    destruct (Z.eqb_spec (dot u u * dot u u) 0); [nia|].
    unfold Qeq. simpl. rewrite Z2Pos.id by nia. lia.
Qed.

(** Row [i] of the matrix is row [i] of [X] compared with every row. *)
Lemma similarity_matrix_lookup X i u :
  X !! i = Some u -> similarity_matrix X !! i = Some (map (fun v => cosine_sq u v) X).
Proof. intros Hi. unfold similarity_matrix. by rewrite list_lookup_fmap, Hi. Qed.

Lemma similarity_matrix_square X :
  length (similarity_matrix X) = length X /\
  Forall (fun row => length row = length X) (similarity_matrix X).
Proof.
  unfold similarity_matrix. rewrite length_map. split; [done|].
  apply Forall_forall. intros row (u & -> & _)%list_elem_of_fmap. by rewrite length_map.
Qed.

End Properties.

End Similarity.

Lemma q_score_lt_true a b : score_lt a b = true <-> (a < b)%Q.
Proof.
  unfold score_lt, q_score_order. rewrite negb_true_iff. split.
  - intros H. apply Qnot_le_lt. intros Hle%Qle_bool_iff. congruence.
  - intros H. destruct (Qle_bool b a) eqn:E; [|done].
    apply Qle_bool_iff in E. by apply Qlt_not_le in H.
Qed.

Lemma q_score_lt_false a b : score_lt a b = false <-> (b <= a)%Q.
Proof. unfold score_lt, q_score_order. by rewrite negb_false_iff, Qle_bool_iff. Qed.

#[export] Instance q_score_order_laws : ScoreOrderLaws Q.
Proof.
  split; intros *.
  - apply q_score_lt_false, Qle_refl.
  - rewrite !q_score_lt_true. apply Qlt_trans.
  - rewrite !q_score_lt_false. intros Hba Hcb. by apply (Qle_trans _ b).
Qed.


Module SimilarityWitnesses.
Import Similarity.
Local Open Scope nat_scope.

Lemma cosine_sq_diag_witness :
  Qeq (cosine_sq [2; 0; 1] [2; 0; 1]) 1%Q /\ cosine_sq [0; 0] [0; 0] = 0%Q.
Proof.
  split.
  - apply (cosine_sq_diag [2; 0; 1]). intros H%Forall_inv. discriminate.
  - apply (cosine_sq_diag [0; 0]). repeat constructor.
Defined.

End SimilarityWitnesses.
