(* ===== verification/Cosine.v ===== *)
(** * The real cosine that [cosine_similarity] computes, and the exact model

    [cosine_similarity(vectors)] (src/CourseRecommendationSystem.py, line
    55) normalises each count vector to unit Euclidean length, a zero
    vector staying zero, and takes dot products: entry [(i, j)] is the real
    number [dot(x_i, x_j) / (|x_i| |x_j|)], or [0] when a vector is zero.
    This file defines that real-valued matrix ([cosine_similarity], with
    [sqrt] from the Standard Library's reals) and relates it to the exact
    rational model [cosine_sq] of Similarity.v: every real entry is the
    square root of the model's entry. The square root preserves and
    reflects [<] on non-negative numbers, so by the rescaling lemmas of
    Ranking.v and Recommend.v, [get_recommendations] gives the same answer
    on the real matrix as on the model. The float rounding of numpy is not
    modelled: the real matrix is the value the float computation
    approximates. This is the one file that loads the Standard Library's
    reals, and with them their classical axioms. *)

From S2P Require Import Prelude Ranking Recommend Similarity.
From Stdlib Require Import QArith Reals Qreals Lra.
Import Recommend Similarity.

(** Python compares the float scores with [<]. *)
#[export] Instance r_score_order : ScoreOrder R := fun a b => if Rlt_dec a b then true else false.

Module Cosine.

Local Open Scope R_scope.

(** [|u|], the Euclidean norm of a count vector. *)
Definition norm (u : list nat) : R := sqrt (IZR (sqnorm u)).

(** One entry of [cosine_similarity]: the dot product of the normalised
    vectors. *)
Definition cosine (u v : list nat) : R :=
  if Z.eqb (sqnorm u * sqnorm v) 0 then 0 else IZR (dot u v) / (norm u * norm v).

Definition cosine_similarity (X : list (list nat)) : list (list R) :=
  map (fun u => map (fun v => cosine u v) X) X.

Section Properties.

Lemma sqnorm_nonneg u : (0 <= sqnorm u)%Z.
Proof. apply dot_nonneg. Qed.

Lemma sqnorm_pos u v : (sqnorm u * sqnorm v)%Z <> 0%Z -> (0 < sqnorm u)%Z /\ (0 < sqnorm v)%Z.
Proof.
  intros Hnn. pose proof (sqnorm_nonneg u). pose proof (sqnorm_nonneg v).
  destruct (Z.eq_dec (sqnorm u) 0) as [Hu|Hu]; [rewrite Hu in Hnn; lia|].
  destruct (Z.eq_dec (sqnorm v) 0) as [Hv|Hv]; [rewrite Hv, Z.mul_0_r in Hnn; lia|]. lia.
Qed.

Lemma cosine_nonneg u v : 0 <= cosine u v.
Proof.
  unfold cosine. destruct (Z.eqb_spec (sqnorm u * sqnorm v) 0) as [|Hnn]; [lra|].
  destruct (sqnorm_pos u v Hnn) as [Hu Hv]. unfold norm.
  apply Rmult_le_pos; [apply IZR_le, dot_nonneg|].
  apply Rlt_le, Rinv_0_lt_compat, Rmult_lt_0_compat; apply sqrt_lt_R0, IZR_lt; lia.
Qed.

(** The model is the square of the real cosine. *)
Lemma cosine_sq_real u v : Q2R (cosine_sq u v) = Rsqr (cosine u v).
Proof.
  unfold cosine_sq, cosine. destruct (Z.eqb_spec (sqnorm u * sqnorm v) 0) as [|Hnn].
  - unfold Q2R, Rsqr. simpl. lra.
  - destruct (sqnorm_pos u v Hnn) as [Hu Hv]. unfold Q2R, norm. simpl Qnum. simpl Qden.
    rewrite Z2Pos.id by lia. rewrite !mult_IZR.
    pose proof (sqrt_sqrt (IZR (sqnorm u)) ltac:(apply IZR_le; lia)) as Hsu.
    pose proof (sqrt_sqrt (IZR (sqnorm v)) ltac:(apply IZR_le; lia)) as Hsv.
    assert (0 < sqrt (IZR (sqnorm u))) by (apply sqrt_lt_R0, IZR_lt; lia).
    assert (0 < sqrt (IZR (sqnorm v))) by (apply sqrt_lt_R0, IZR_lt; lia).
    set (x := sqrt (IZR (sqnorm u))) in *. set (y := sqrt (IZR (sqnorm v))) in *.
    rewrite <- Hsu, <- Hsv. unfold Rsqr. field. lra.
Qed.

Lemma cosine_sqrt u v : cosine u v = sqrt (Q2R (cosine_sq u v)).
Proof. rewrite cosine_sq_real. symmetry. apply sqrt_Rsqr, cosine_nonneg. Qed.

Lemma cosine_sq_nonneg u v : (0 <= cosine_sq u v)%Q.
Proof. apply Rle_Qle. rewrite cosine_sq_real. unfold Q2R. simpl. rewrite Rmult_0_l. apply Rle_0_sqr. Qed.

Lemma cosine_similarity_sqrt X :
  cosine_similarity X =
  (fun row : list Q => (fun q => sqrt (Q2R q)) <$> row) <$> similarity_matrix X.
Proof.
  unfold cosine_similarity, similarity_matrix.
  rewrite <- (map_fmap (fun row : list Q => (fun q => sqrt (Q2R q)) <$> row)), map_map.
  apply map_ext. intros u. rewrite <- (map_fmap (fun q => sqrt (Q2R q))), map_map.
  apply map_ext. intros v. apply cosine_sqrt.
Qed.

(** On non-negative scores, [sqrt] after [Q2R] keeps the order of [Q]. *)
Lemma sqrt_Q2R_order a b :
  (0 <= a)%Q -> (0 <= b)%Q -> score_lt (sqrt (Q2R a)) (sqrt (Q2R b)) = score_lt a b.
Proof.
  intros Ha Hb. apply Qle_Rle in Ha, Hb. rewrite RMicromega.Q2R_0 in Ha, Hb.
  unfold score_lt at 1, r_score_order. destruct (Rlt_dec _ _) as [Hlt|Hge].
  - symmetry. apply q_score_lt_true, Rlt_Qlt. by apply sqrt_lt_0_alt.
  - symmetry. apply not_true_iff_false. rewrite q_score_lt_true. intros Hab%Qlt_Rlt.
    apply Hge, sqrt_lt_1_alt. lra.
Qed.

(** C4: Refinement of the float computation's ranking: on any count
    vectors, [get_recommendations] returns the same names and the same
    error on the real cosine matrix that [cosine_similarity] computes as on
    the exact squared model [similarity_matrix]. *)
Theorem get_recommendations_real_cosine courses X name :
  get_recommendations courses (cosine_similarity X) name =
  get_recommendations courses (similarity_matrix X) name.
Proof.
  rewrite cosine_similarity_sqrt.
  apply (get_recommendations_rescale (fun q => 0 <= q)%Q (fun q => sqrt (Q2R q)));
    try (intros a b; apply sqrt_Q2R_order).
  unfold similarity_matrix. apply Forall_forall. intros row (u & <- & _)%list_elem_of_In%in_map_iff.
  apply Forall_forall. intros q (v & <- & _)%list_elem_of_In%in_map_iff. apply cosine_sq_nonneg.
Qed.

End Properties.

End Cosine.
