(* ===== verification/Store.v ===== *)
(** * The Artifact Store: [save_resources] and [load_resources]

    Models [save_resources] (src/CourseRecommendationSystem.py, lines
    58-64) and [load_resources] (src/main.py, lines 15-26) over an explicit
    file system: a set of directories and a map from path to file content.
    A file holds a pickled Python object ([Pickled]) or bytes that do not
    unpickle ([Garbage]); pickling is not modelled byte by byte, so the
    objects round-trip by construction and the theorems are about which
    files are written, in which order, and what [load_resources] returns.
    [save_resources] is a list of file-system operations run in order, so
    that a crash after any prefix of them is a state of the model; each
    operation raises what [os.makedirs(exist_ok=True)] and [open(path,
    'wb')] raise on a file where a directory is expected, a directory
    where a file is expected, or a missing directory. *)

From S2P Require Import Prelude Preprocess.
From Stdlib Require Import QArith.
Import Preprocess.

Module Store.

(** The Python objects the two scripts exchange. *)
Inductive pyobj :=
| PyMatrix (m : list (list Q))     (** the [ndarray] of [cosine_similarity] *)
| PyDict (cs : list course)        (** [df.to_dict()] *)
| PyFrame (cs : list course).      (** the [DataFrame] itself *)

Inductive file :=
| Pickled (o : pyobj)
| Garbage.

Record fs := mk_fs { dirs : gset string; files : gmap string file }.

Definition models_dir : string := "models".
Definition similarity_path : string := "models/similarity.pkl".
Definition course_list_path : string := "models/course_list.pkl".
Definition courses_path : string := "models/courses.pkl".

(** The file-system operations of [save_resources]. *)
Inductive fs_op :=
| MakeDirs (d : string)                 (** [os.makedirs(d, exist_ok=True)] *)
| Dump (dir path : string) (o : pyobj). (** [pickle.dump(o, open(path, 'wb'))] *)

Inductive io_error :=
| FileNotFoundError (path : string)
| FileExistsError (path : string)
| IsADirectoryError (path : string)
| UnpicklingError (path : string).

(** [os.makedirs(d, exist_ok=True)] accepts an existing directory and
    raises [FileExistsError] when [d] is an existing file; [open(path, 'wb')]
    raises [FileNotFoundError] when the directory is missing and
    [IsADirectoryError] when [path] is a directory. *)
Definition run_op (op : fs_op) (s : fs) : result io_error fs :=
  match op with
  | MakeDirs d =>
      if decide ((d ∉ dirs s) /\ (d ∈ dom (files s))) then Err (FileExistsError d)
      else Ok (mk_fs ({[d]} ∪ dirs s) (files s))
  | Dump d p o =>
      if decide (d ∈ dirs s) then
        if decide (p ∈ dirs s) then Err (IsADirectoryError p)
        else Ok (mk_fs (dirs s) (<[p := Pickled o]> (files s)))
      else Err (FileNotFoundError p)
  end.

Fixpoint run_ops (ops : list fs_op) (s : fs) : result io_error fs :=
  match ops with
  | [] => Ok s
  | op :: ops' => let* s' := run_op op s in run_ops ops' s'
  end.

(** Lines 58-64, in the code's order: the directory, the similarity
    matrix, the dictionary, then the table. *)
Definition save_ops (df : list course) (similarity : list (list Q)) : list fs_op :=
  [MakeDirs models_dir;
   Dump models_dir similarity_path (PyMatrix similarity);
   Dump models_dir course_list_path (PyDict df);
   Dump models_dir courses_path (PyFrame df)].

Definition save_resources (df : list course) (similarity : list (list Q)) (s : fs)
    : result io_error fs :=
  run_ops (save_ops df similarity) s.

(** [pickle.load(open(path, 'rb'))]. *)
Definition pickle_load (s : fs) (path : string) : result io_error pyobj :=
  match files s !! path with
  | None => Err (FileNotFoundError path)
  | Some Garbage => Err (UnpicklingError path)
  | Some (Pickled o) => Ok o
  end.

(** What the page shows when loading stops the script ([st.error] then
    [st.stop()]). *)
Inductive load_failure :=
| CriticalFilesMissing (path : string)   (** [except FileNotFoundError] *)
| ErrorLoadingData (path : string).      (** [except Exception] *)

(** Lines 15-26: the table first, then the matrix; the two objects are
    returned as they are, with no check that they belong together. *)
Definition load_resources (s : fs) : result load_failure (pyobj * pyobj) :=
  let handle r :=
    match r with
    | Ok o => Ok o
    | Err (FileNotFoundError p) => Err (CriticalFilesMissing p)
    | Err (FileExistsError p | IsADirectoryError p | UnpicklingError p) => Err (ErrorLoadingData p)
    end in
  let* courses := handle (pickle_load s courses_path) in
  let* similarity := handle (pickle_load s similarity_path) in
  Ok (courses, similarity).

(** The state in which every operation of [save_resources] succeeds:
    [models] is a directory or does not exist, and none of the three
    pickle paths is a directory. *)
Definition save_ready (s : fs) : Prop :=
  (models_dir ∈ dirs s \/ models_dir ∉ dom (files s)) /\
  (similarity_path ∉ dirs s) /\ (course_list_path ∉ dirs s) /\ (courses_path ∉ dirs s).

Section Properties.

Lemma models_dir_ne_paths :
  similarity_path <> models_dir /\ course_list_path <> models_dir /\ courses_path <> models_dir.
Proof. split_and!; discriminate. Qed.

Lemma run_makedirs d s :
  d ∈ dirs s \/ d ∉ dom (files s) -> run_op (MakeDirs d) s = Ok (mk_fs ({[d]} ∪ dirs s) (files s)).
Proof. intros Hd. simpl. rewrite decide_False; [done|]. intros [??]. tauto. Qed.

Lemma run_dump d p o s :
  d ∈ dirs s -> p ∉ dirs s ->
  run_op (Dump d p o) s = Ok (mk_fs (dirs s) (<[p := Pickled o]> (files s))).
Proof. intros Hd Hp. simpl. by rewrite decide_True, decide_False. Qed.

Lemma run_dump_dir d p o s :
  d ∈ dirs s -> p ∈ dirs s -> run_op (Dump d p o) s = Err (IsADirectoryError p).
Proof. intros Hd Hp. simpl. by rewrite !decide_True. Qed.

Lemma load_resources_Ok_iff s o1 o2 :
  load_resources s = Ok (o1, o2) <->
  files s !! courses_path = Some (Pickled o1) /\ files s !! similarity_path = Some (Pickled o2).
Proof.
  unfold load_resources, pickle_load.
  destruct (files s !! courses_path) as [[o|]|]; simpl; [|naive_solver..].
  destruct (files s !! similarity_path) as [[o'|]|]; simpl; naive_solver.
Qed.

(** The state [save_resources] leaves when it succeeds. *)
Definition saved (cs : list course) (sim : list (list Q)) (s : fs) : fs :=
  mk_fs ({[models_dir]} ∪ dirs s)
    (<[courses_path := Pickled (PyFrame cs)]> (<[course_list_path := Pickled (PyDict cs)]>
       (<[similarity_path := Pickled (PyMatrix sim)]> (files s)))).

Lemma save_resources_Ok cs sim s :
  save_ready s -> save_resources cs sim s = Ok (saved cs sim s).
Proof.
  intros (Hm & Hs & Hl & Hc). pose proof models_dir_ne_paths as (Ns & Nl & Nc).
  unfold save_resources, save_ops. cbn [run_ops].
  rewrite run_makedirs by done. cbn [result_bind].
  rewrite run_dump by (cbn [dirs]; set_solver). cbn [result_bind].
  rewrite run_dump by (cbn [dirs]; set_solver). cbn [result_bind].
  rewrite run_dump by (cbn [dirs]; set_solver). done.
Qed.

Lemma save_resources_Ok_inv cs sim s s' :
  save_resources cs sim s = Ok s' -> save_ready s /\ s' = saved cs sim s.
Proof.
  pose proof models_dir_ne_paths as (Ns & Nl & Nc).
  unfold save_resources, save_ops. cbn [run_ops run_op result_bind dirs files].
  intros Hok. repeat (case_decide; cbn [result_bind run_ops run_op dirs files] in Hok; try discriminate).
  injection Hok as <-.
  split; [|done]. split_and!; [|set_solver..].
  destruct (decide (models_dir ∈ dirs s)); [by left | right; tauto].
Qed.

Lemma save_resources_load cs sim s s' :
  save_resources cs sim s = Ok s' -> load_resources s' = Ok (PyFrame cs, PyMatrix sim).
Proof.
  intros [_ ->]%save_resources_Ok_inv. apply load_resources_Ok_iff. simpl.
  unfold courses_path, similarity_path, course_list_path. split; lookup_simpl; done.
Qed.

(** C27: Round trip: [save_resources] succeeds exactly when [models] is a
    directory or absent and no pickle path is a directory; and whenever it
    succeeds, loading what it saved returns exactly the table and the
    matrix, whatever the files held before. *)
Theorem save_load_roundtrip cs sim s :
  ((exists s', save_resources cs sim s = Ok s') <-> save_ready s) /\
  (forall s', save_resources cs sim s = Ok s' -> load_resources s' = Ok (PyFrame cs, PyMatrix sim)).
Proof.
  split; [split|].
  - intros [s' Hs']. by apply (save_resources_Ok_inv cs sim s s').
  - intros Hr. eexists. by apply save_resources_Ok.
  - apply save_resources_load.
Qed.

(** C28: The errors of [save_resources], each raised before anything is
    written in its place: [os.makedirs] raises [FileExistsError] when
    [models] is a file, and the first [open(..., 'wb')] whose path is a
    directory raises [IsADirectoryError], the earlier pickles having been
    written. *)
Theorem save_resources_errors cs sim s :
  (models_dir ∉ dirs s -> models_dir ∈ dom (files s) ->
     save_resources cs sim s = Err (FileExistsError models_dir)) /\
  (models_dir ∈ dirs s \/ models_dir ∉ dom (files s) ->
     similarity_path ∈ dirs s -> save_resources cs sim s = Err (IsADirectoryError similarity_path)) /\
  (models_dir ∈ dirs s \/ models_dir ∉ dom (files s) -> similarity_path ∉ dirs s ->
     course_list_path ∈ dirs s -> save_resources cs sim s = Err (IsADirectoryError course_list_path)) /\
  (models_dir ∈ dirs s \/ models_dir ∉ dom (files s) -> similarity_path ∉ dirs s ->
     course_list_path ∉ dirs s -> courses_path ∈ dirs s ->
     save_resources cs sim s = Err (IsADirectoryError courses_path)).
Proof.
  pose proof models_dir_ne_paths as (Ns & Nl & Nc).
  unfold save_resources, save_ops. cbn [run_ops].
  split_and!; intros; [simpl; by rewrite decide_True|..];
    rewrite run_makedirs by done; cbn [result_bind];
    repeat (rewrite run_dump by (cbn [dirs]; set_solver); cbn [result_bind]);
    by rewrite run_dump_dir by (cbn [dirs]; set_solver).
Qed.

(** C29: Loading fails, with the page's "Critical data files missing"
    error, exactly at the first of the two files that is absent, and it
    accepts any two unpickled objects: nothing checks that the table and
    the matrix have the same number of rows. *)
Theorem load_resources_errors s :
  (files s !! courses_path = None ->
     load_resources s = Err (CriticalFilesMissing courses_path)) /\
  (forall o, files s !! courses_path = Some (Pickled o) -> files s !! similarity_path = None ->
     load_resources s = Err (CriticalFilesMissing similarity_path)) /\
  (forall cs m, files s !! courses_path = Some (Pickled (PyFrame cs)) ->
     files s !! similarity_path = Some (Pickled (PyMatrix m)) ->
     load_resources s = Ok (PyFrame cs, PyMatrix m)).
Proof.
  unfold load_resources, pickle_load. split; [|split].
  - by intros ->.
  - intros o -> ->. done.
  - intros cs m -> ->. done.
Qed.

(** C30: [save_resources] is not atomic: it writes the matrix before the
    table. A run stopped after the matrix is written leaves the new matrix
    beside the old table, and [load_resources] serves that mismatched
    pair. *)
Theorem save_interrupted_mismatch cs sim s old :
  models_dir ∈ dirs s \/ models_dir ∉ dom (files s) -> similarity_path ∉ dirs s ->
  files s !! courses_path = Some (Pickled old) ->
  exists s', run_ops (take 2 (save_ops cs sim)) s = Ok s' /\
             load_resources s' = Ok (old, PyMatrix sim).
Proof.
  intros Hm Hs Hold. unfold save_ops. cbn [take run_ops].
  rewrite run_makedirs by done. cbn [result_bind].
  rewrite run_dump by (cbn [dirs]; pose proof models_dir_ne_paths; set_solver).
  eexists. split; [reflexivity|]. apply load_resources_Ok_iff. simpl.
  unfold courses_path, similarity_path in *. split; lookup_simpl; done.
Qed.

End Properties.

End Store.

Module StoreWitnesses.
Import Store.

Local Abbreviation old_course := (mk_course "intro" None (Some "Beginner") None None "" "" "").

Lemma load_resources_errors_witness :
  load_resources (mk_fs ∅ ∅) = Err (CriticalFilesMissing courses_path).
Proof. apply (load_resources_errors (mk_fs ∅ ∅)). reflexivity. Defined.

Lemma save_interrupted_mismatch_witness :
  exists s', run_ops (take 2 (save_ops [old_course; old_course] [[1; 0]; [0; 1]]%Q))
               (mk_fs {[models_dir]} {[courses_path := Pickled (PyFrame [old_course])]}) = Ok s' /\
             load_resources s' = Ok (PyFrame [old_course], PyMatrix [[1; 0]; [0; 1]]%Q).
Proof. apply save_interrupted_mismatch; [left; set_solver | set_solver | reflexivity]. Defined.

Lemma save_load_roundtrip_witness :
  exists s', save_resources [old_course] [[1]%Q] (mk_fs ∅ ∅) = Ok s' /\
    load_resources s' = Ok (PyFrame [old_course], PyMatrix [[1]%Q]).
Proof.
  destruct (save_load_roundtrip [old_course] [[1]%Q] (mk_fs ∅ ∅)) as [[_ Hready] Hload].
  destruct Hready as [s' Hs']; [unfold save_ready; simpl; split_and!; set_solver|].
  exists s'. split; [exact Hs'|]. exact (Hload s' Hs').
Defined.

Lemma save_resources_errors_witness :
  save_resources [old_course] [[1]%Q] (mk_fs ∅ {[models_dir := Garbage]}) =
    Err (FileExistsError models_dir).
Proof. apply (save_resources_errors [old_course] [[1]%Q] (mk_fs ∅ {[models_dir := Garbage]})); simpl; set_solver. Defined.

End StoreWitnesses.
