(* ===== verification/Pipeline.v ===== *)
(** * The build, end to end, and what the queries see of it

    Models [create_similarity_matrix] (lines 50-56) and [main] (lines
    66-76) of src/CourseRecommendationSystem.py: the frame read from the
    CSV goes through [preprocess_data], its [tags] column through the
    vectorizer, and the count vectors through [cosine_similarity]
    ([build]); [main] then writes them with [save_resources] (Store.v). The
    theorems connect the build to the query side: [main] succeeds exactly
    when the build does and the models/ paths can be written, and leaves
    a matched pair on disk, so [get_recommendations] never fails on it;
    tags with no token in common are dissimilar. Two examples run the
    spec's scenarios, one of them a course recommended to itself. *)

From S2P Require Import Prelude PyStr Preprocess Ranking Recommend Vectorizer Similarity Store.
From Stdlib Require Import QArith.
Import PyStr Preprocess Ranking Recommend Vectorizer Similarity Store.

Module Pipeline.

Inductive build_error :=
| PreprocessError (e : py_error)
| VectorizeError (e : vec_error).

(** The exception that stops [main]: one of the build or one of the
    writes. *)
Inductive main_error :=
| BuildFailed (e : build_error)
| SaveFailed (e : io_error).

Section Build.
Variables (stem : string -> string) (is_stop : string -> bool).

(** Lines 50-56: vectorize the [tags] column, then [cosine_similarity]. *)
Definition create_similarity_matrix (cs : list course) : result vec_error (list (list Q)) :=
  let* vectors := fit_transform is_stop code_max_features (map tags cs) in
  Ok (similarity_matrix vectors).

(** Lines 66-72, [main] up to [save_resources]: the processed table and
    its similarity matrix. *)
Definition build (df : frame) : result build_error (list course * list (list Q)) :=
  match preprocess_data stem df with
  | Err e => Err (PreprocessError e)
  | Ok cs =>
      match create_similarity_matrix cs with
      | Err e => Err (VectorizeError e)
      | Ok sim => Ok (cs, sim)
      end
  end.

(** Lines 66-76, the whole of [main]: build, then [save_resources]. The
    [print] calls write to the console only. *)
Definition main (df : frame) (s : fs) : result main_error fs :=
  match build df with
  | Err e => Err (BuildFailed e)
  | Ok (cs, sim) =>
      match save_resources cs sim s with
      | Err e => Err (SaveFailed e)
      | Ok s' => Ok s'
      end
  end.

End Build.

(** ** Sample data for the scenarios of the spec

    A few words of scikit-learn's English stop-word list, the identity as
    stemmer (the sample words are already stems), and a frame with the
    seven columns of the Coursera CSV. *)
Definition sample_stop_words (w : string) : bool :=
  bool_decide (w ∈ ["to"; "the"; "a"; "and"; "of"; "in"; "through"]).

Definition sample_header : list string :=
  ["Course Name"; "University"; "Difficulty Level"; "Course Rating";
   "Course URL"; "Course Description"; "Skills"].

Definition sample_row (name diff desc sk : string) : row :=
  list_to_map [("Course Name", Some name); ("University", Some "Example University");
               ("Difficulty Level", Some diff); ("Course Rating", Some "4.5");
               ("Course URL", Some "https://example.org"); ("Course Description", Some desc);
               ("Skills", Some sk)].

(** The spec's scenario: two near-duplicate Python courses and an
    unrelated one. *)
Definition python_frame : frame :=
  mk_frame sample_header
    [sample_row "Intro to Python" "Beginner" "Learn Python basics" "python";
     sample_row "Intro to Python Programming" "Beginner" "Learn Python basics and programming"
       "python programming";
     sample_row "Advanced Opera History" "Advanced" "Opera through the ages" "music history"].

(** Two courses whose tags hold the same words: same description, same
    skills, the name's words in another order. *)
Definition twin_frame : frame :=
  mk_frame sample_header
    [sample_row "Python Data" "Beginner" "Data analysis with Python" "pandas";
     sample_row "Data Python" "Beginner" "Data analysis with Python" "pandas";
     sample_row "Opera Singing" "Advanced" "Voice training" "music"].

Definition build_sample (df : frame) := build (fun w => w) sample_stop_words df.

Section Properties.
Variables (stem : string -> string) (is_stop : string -> bool).

Lemma create_similarity_matrix_Ok cs sim :
  create_similarity_matrix is_stop cs = Ok sim ->
  exists vocab, fit_vocabulary is_stop code_max_features (map tags cs) = Ok vocab /\
    sim = similarity_matrix (map (transform is_stop vocab) (map tags cs)).
Proof.
  unfold create_similarity_matrix, fit_transform. intros H.
  destruct (fit_vocabulary is_stop code_max_features (map tags cs)) as [vocab|]; [|done].
  injection H as <-. eauto.
Qed.

Lemma build_Ok df cs sim :
  build stem is_stop df = Ok (cs, sim) ->
  preprocess_data stem df = Ok cs /\ create_similarity_matrix is_stop cs = Ok sim.
Proof.
  unfold build. destruct (preprocess_data stem df) as [cs'|]; [|done].
  destruct (create_similarity_matrix is_stop cs') as [sim'|] eqn:Hsim; [|done].
  intros [= <- <-]. by split.
Qed.

(** The two artifacts of the build are a matched pair: one row and one
    column per course. *)
Lemma build_square df cs sim :
  build stem is_stop df = Ok (cs, sim) -> square sim (length cs).
Proof.
  intros [_ (vocab & _ & ->)%create_similarity_matrix_Ok]%build_Ok.
  destruct (similarity_matrix_square (map (transform is_stop vocab) (map tags cs))) as [Hl Hr].
  rewrite !length_map in Hl, Hr. by split.
Qed.

(** C1: On the table and matrix of a successful build, no query makes
    [get_recommendations] raise: the page never shows a recommendation
    error. *)
Theorem build_recommend_no_error df cs sim name :
  build stem is_stop df = Ok (cs, sim) -> (get_recommendations cs sim name).2 = None.
Proof.
  intros Hb. destruct (find_course cs name) as [i|] eqn:Hi.
  - destruct (recommend_square cs sim name i (build_square _ _ _ Hb) Hi)
      as (row & names & _ & Hrec & _). unfold get_recommendations. by rewrite Hrec.
  - unfold get_recommendations, recommend. by rewrite Hi.
Qed.

(** C31: [main] succeeds exactly when the build succeeds and the models/
    paths can be written ([save_ready]), and then the two files the page
    loads hold the built table and its matrix, a matched pair with one row
    and one column per course. *)
Theorem main_matched_pair df s :
  ((exists s', main stem is_stop df s = Ok s') <->
     (exists r, build stem is_stop df = Ok r) /\ save_ready s) /\
  (forall s', main stem is_stop df s = Ok s' ->
     exists cs sim, build stem is_stop df = Ok (cs, sim) /\
       load_resources s' = Ok (PyFrame cs, PyMatrix sim) /\ square sim (length cs)).
Proof.
  unfold main. split; [split|].
  - destruct (build stem is_stop df) as [[cs sim]|]; intros [s' Hs']; [|done].
    destruct (save_resources cs sim s) as [s''|] eqn:Hsave; [|done].
    split; [by eexists|]. by apply (save_resources_Ok_inv cs sim s s'').
  - intros [[[cs sim] ->] Hready]. rewrite save_resources_Ok by done. by eexists.
  - intros s'. destruct (build stem is_stop df) as [[cs sim]|] eqn:Hb; [|done].
    destruct (save_resources cs sim s) as [s''|] eqn:Hsave; [|done]. intros [= <-].
    exists cs, sim. split; [done|]. split; [by eapply save_resources_load|].
    by eapply build_square.
Qed.

Lemma count_not_elem t ws : t ∉ ws -> count t ws = 0%nat.
Proof.
  intros Ht. unfold count. rewrite filter_Forall_not; [done|].
  apply Forall_forall. intros w Hw ->. done.
Qed.

Lemma dot_transform_disjoint vocab a b :
  (forall t, t ∈ analyze is_stop a -> t ∉ analyze is_stop b) ->
  dot (transform is_stop vocab a) (transform is_stop vocab b) = 0%Z.
Proof.
  intros Hdis. unfold transform. induction vocab as [|t vocab IH]; [done|].
  simpl. rewrite dot_cons, IH.
  destruct (decide (t ∈ analyze is_stop a)) as [Ha|Ha].
  - rewrite (count_not_elem t (analyze is_stop b)) by auto. lia.
  - rewrite (count_not_elem t (analyze is_stop a)) by done. lia.
Qed.

(** C16: Two courses whose tags share no vocabulary token after stop-word
    removal have similarity 0. *)
Theorem build_disjoint_tags df cs sim i j ci cj :
  build stem is_stop df = Ok (cs, sim) -> cs !! i = Some ci -> cs !! j = Some cj ->
  (forall t, t ∈ analyze is_stop (tags ci) -> t ∉ analyze is_stop (tags cj)) ->
  exists row q, sim !! i = Some row /\ row !! j = Some q /\ (q == 0)%Q.
Proof.
  intros [_ (vocab & _ & ->)%create_similarity_matrix_Ok]%build_Ok Hi Hj Hdis.
  eexists _, (cosine_sq (transform is_stop vocab (tags ci)) (transform is_stop vocab (tags cj))).
  split; [apply similarity_matrix_lookup; by rewrite !list_lookup_fmap, Hi|].
  split; [by rewrite !list_lookup_fmap, Hj|].
  unfold cosine_sq. rewrite dot_transform_disjoint by done.
  destruct (Z.eqb _ 0); reflexivity.
Qed.

End Properties.

(** The spec's scenario: on the three sample courses, "Intro to
    Python" is answered with the near-duplicate Python course first, and
    its similarity with the opera course (no shared token) is 0. *)
Example python_scenario :
  exists cs sim, build_sample python_frame = Ok (cs, sim) /\
    get_recommendations cs sim "Intro to Python" =
      (["intro to python programming"; "advanced opera history"], None) /\
    (exists (row : list Q) q, sim !! 0%nat = Some row /\ row !! 2%nat = Some q /\ (q == 0)%Q).
Proof.
  do 2 eexists. split; [vm_compute; reflexivity|]. split; [vm_compute; reflexivity|].
  do 2 eexists. split; [vm_compute; reflexivity|]. split; [vm_compute; reflexivity|].
  reflexivity.
Qed.

(** A course can be recommended to itself (the tie of
    Recommend.v on a built table). When another course has
    the same tag words (similarity 1, a tie with the self-similarity) and
    comes earlier in the table, the stable sort puts that course first, the
    code drops it as if it were the self-match, and the queried course
    itself heads the recommendations. *)
Example self_recommendation :
  exists cs sim, build_sample twin_frame = Ok (cs, sim) /\
    find_course cs "Data Python" = Some 1%nat /\
    (get_recommendations cs sim "Data Python").1 = ["data python"; "opera singing"].
Proof.
  do 2 eexists. split; [vm_compute; reflexivity|]. split; vm_compute; reflexivity.
Qed.

Lemma build_recommend_no_error_witness :
  exists cs sim, build_sample python_frame = Ok (cs, sim) /\
    (get_recommendations cs sim "Advanced Opera History").2 = None.
Proof.
  do 2 eexists. split; [vm_compute; reflexivity|].
  apply (build_recommend_no_error (fun w => w) sample_stop_words python_frame).
  vm_compute. reflexivity.
Defined.

Lemma main_matched_pair_witness :
  exists s', main (fun w => w) sample_stop_words python_frame (mk_fs ∅ ∅) = Ok s' /\
    exists cs sim, build_sample python_frame = Ok (cs, sim) /\
      load_resources s' = Ok (PyFrame cs, PyMatrix sim) /\ square sim (length cs).
Proof.
  destruct (main_matched_pair (fun w => w) sample_stop_words python_frame (mk_fs ∅ ∅))
    as [[_ Hok] Hpair].
  destruct Hok as [s' Hs'].
  { split; [eexists; vm_compute; reflexivity | unfold save_ready; simpl; split_and!; set_solver]. }
  exists s'. split; [exact Hs'|]. exact (Hpair s' Hs').
Defined.

Lemma build_disjoint_tags_witness :
  exists cs sim, build_sample python_frame = Ok (cs, sim) /\
    exists (row : list Q) q, sim !! 0%nat = Some row /\ row !! 2%nat = Some q /\ (q == 0)%Q.
Proof.
  do 2 eexists. split; [vm_compute; reflexivity|].
  eapply (build_disjoint_tags (fun w => w) sample_stop_words python_frame _ _ 0 2).
  - vm_compute. reflexivity.
  - vm_compute. reflexivity.
  - vm_compute. reflexivity.
  - apply Forall_forall. apply (bool_decide_unpack _). vm_compute. reflexivity.
Defined.

End Pipeline.
