(* ===== verification/Search.v ===== *)
(** * The Search Engine: [enhanced_search] and the difficulty filter

    Models src/main.py, [enhanced_search] (lines 74-80) and the filter of
    lines 86-88. The query is stripped and lower-cased, then handed to
    pandas' [str.contains], whose default is [regex=True]: the query is a
    regular expression, compiled once per column ([re.compile]) and searched
    in every lower-cased name, description and skills field; a course
    matches when one of the three fields does. Python's regular-expression
    engine is not modelled: the class [RegexEngine] states what the search
    relies on, namely that a query with no metacharacter compiles and
    matches exactly its occurrences as a substring. Any engine with that
    law can be plugged in; [literal_engine] is one that refuses every
    pattern that is not literal. *)

From S2P Require Import Prelude PyStr Preprocess.
Import PyStr Preprocess.

Module Search.

Inductive re_error := ReError (what : string).

(** The metacharacters of Python's [re]. *)
Definition is_meta (c : ascii) : bool :=
  bool_decide (c ∈ [".";"^";"$";"*";"+";"?";"{";"}";"[";"]";"\";"|";"(";")"]%char).

Definition literal_pattern (q : string) : bool := sall (fun c => negb (is_meta c)) q.

(** [re.compile(pattern)]: a matcher, or [re.error]. *)
Class RegexEngine := regex_compile : string -> result re_error (string -> bool).

Class RegexEngineLaws `{RegexEngine} :=
  regex_literal : forall q, literal_pattern q = true -> regex_compile q = Ok (contains q).

(** An engine that knows literal patterns only. *)
#[export] Instance literal_engine : RegexEngine := fun q =>
  if literal_pattern q then Ok (contains q) else Err (ReError "pattern not modelled").

Section Search.
Context `{RegexEngine}.

(** Line 75: [query.strip().lower()]. *)
Definition normalize_query (q : string) : string := lower (strip q).

(** Lines 77-79: the three [str.contains] columns, joined with [|]. *)
Definition course_matches (m : string -> bool) (c : course) : bool :=
  m (lower (course_name c)) || m (lower (description c)) || m (lower (skills c)).

(** Lines 74-80: the rows of the table that match, in table order. *)
Definition enhanced_search (q : string) (courses : list course) : result re_error (list course) :=
  let* m := regex_compile (normalize_query q) in
  Ok (filter (fun c => course_matches m c = true) courses).

(** Lines 87-88: the difficulty filter, unless the sentinel ['All'] is
    selected. *)
Definition apply_filter (difficulty_filter : string) (results : list course) : list course :=
  if String.eqb difficulty_filter "All" then results
  else filter (fun c => difficulty c = Some difficulty_filter) results.

End Search.

Section Properties.
Context `{RegexEngineLaws}.

(** C24: A query without regular-expression metacharacters selects exactly
    the courses whose lower-cased name, description or skills contain the
    stripped, lower-cased query, and keeps them in table order. *)
Theorem enhanced_search_literal q courses :
  literal_pattern (normalize_query q) = true ->
  exists rs, enhanced_search q courses = Ok rs /\ rs `sublist_of` courses /\
    forall c, c ∈ rs <-> c ∈ courses /\
      (contains (normalize_query q) (lower (course_name c)) ||
       contains (normalize_query q) (lower (description c)) ||
       contains (normalize_query q) (lower (skills c))) = true.
Proof.
  intros Hlit. unfold enhanced_search. rewrite regex_literal by done. simpl.
  eexists. split; [done|]. split; [apply sublist_filter|].
  intros c. rewrite list_elem_of_filter. unfold course_matches. naive_solver.
Qed.

Lemma clean_course_no_match q c :
  is_clean (course_name c) && is_clean (description c) && is_clean (skills c) = true ->
  is_clean q = false -> course_matches (contains q) c = false.
Proof.
  intros Hc Hq. apply andb_prop in Hc as [[Hn Hd]%andb_prop Hs].
  unfold course_matches. rewrite !lower_clean by done.
  repeat apply orb_false_intro; apply not_true_iff_false;
    intros Hm%contains_clean; congruence.
Qed.

(** C25: On a table the build produced, a literal query that is not a
    normalised string (it holds punctuation, a tab, or two spaces in a row)
    matches nothing: the searched fields were stripped of punctuation and
    their spaces collapsed by the build. *)
Theorem search_unclean_query_empty stem df cs q :
  Preprocess.preprocess_data stem df = Ok cs ->
  literal_pattern (normalize_query q) = true -> is_clean (normalize_query q) = false ->
  enhanced_search q cs = Ok [].
Proof.
  intros Hb Hlit Hq. apply PreprocessFacts.preprocess_data_fields_clean in Hb as Hclean.
  unfold enhanced_search. rewrite regex_literal by done. simpl. f_equal.
  apply filter_Forall_not. eapply Forall_impl; [exact Hclean|].
  intros c Hc. rewrite (clean_course_no_match _ _ Hc Hq). done.
Qed.

End Properties.

#[export] Instance literal_engine_laws : RegexEngineLaws (H := literal_engine).
Proof. intros q Hq. unfold regex_compile, literal_engine. by rewrite Hq. Qed.

End Search.

Module SearchWitnesses.
Import Search.

Local Abbreviation sample_courses :=
  [mk_course "data science basics" None (Some "Beginner") None None "learn data analysis" "python" "";
   mk_course "opera history" None (Some "Advanced") None None "opera through the ages" "music" "";
   mk_course "big data" None (Some "Advanced") None None "data at scale" "spark" ""].

Lemma enhanced_search_literal_witness :
  exists rs, enhanced_search "  Data " sample_courses = Ok rs /\ rs `sublist_of` sample_courses /\
    forall c, c ∈ rs <-> c ∈ sample_courses /\
      (contains (normalize_query "  Data ") (lower (course_name c)) ||
       contains (normalize_query "  Data ") (lower (description c)) ||
       contains (normalize_query "  Data ") (lower (skills c))) = true.
Proof. apply enhanced_search_literal. vm_compute. reflexivity. Defined.

Local Abbreviation ecommerce_frame :=
  (mk_frame ["Course Name"; "University"; "Difficulty Level"; "Course Rating";
             "Course URL"; "Course Description"; "Skills"]
    [list_to_map [("Course Name", Some "E-Commerce Basics"); ("University", Some "X");
                  ("Difficulty Level", Some "Beginner"); ("Course Rating", Some "4.5");
                  ("Course URL", Some "https://example.org");
                  ("Course Description", Some "Selling online: e-commerce.");
                  ("Skills", Some "e-commerce")]]).

Lemma search_unclean_query_empty_witness :
  exists cs, Preprocess.preprocess_data (fun w => w) ecommerce_frame = Ok cs /\
    enhanced_search "E-Commerce" cs = Ok [].
Proof.
  destruct (Preprocess.preprocess_data (fun w => w) ecommerce_frame) as [cs|e] eqn:Hb;
    [|vm_compute in Hb; discriminate].
  exists cs. split; [reflexivity|].
  apply (search_unclean_query_empty (fun w => w) ecommerce_frame cs "E-Commerce" Hb);
    vm_compute; reflexivity.
Defined.

End SearchWitnesses.
