(* ===== verification/App.v ===== *)
(** * The page: [main] of src/main.py as a rerun step

    Streamlit runs the whole script of src/main.py again on every
    interaction. One run is [run_page]: it reads the cached artifacts
    ([@st.cache_data] on [load_resources], lines 14-26), or loads them and
    caches them when the load succeeds; builds the difficulty options
    (lines 53-57); runs the search and the filter when the search box is not
    empty (lines 83-90); lays the result cards out over three columns
    (lines 93-103); and calls [get_recommendations] when the session state
    holds a ['selected_course'] (lines 107-114). The state a run carries to
    the next is the cache and the session state; [step] is the rerun
    relation and [reachable] its closure from a fresh session. What is
    drawn (markdown, HTML, spinner) is not modelled beyond the values it
    shows. *)

From S2P Require Import Prelude PyStr Preprocess Ranking Recommend Similarity Search Store.
From Stdlib Require Import QArith.
From stdpp Require Import pretty.
Import PyStr Preprocess Ranking Recommend Similarity Search Store.

Module App.

(** The two widgets: the search text and the index of the selected
    difficulty option ([st.selectbox] starts at 0, ['All']). *)
Record inputs := mk_inputs { search_input : string; filter_index : nat }.

(** What a run keeps: the cached artifacts and [st.session_state]. *)
Record app_state := mk_app {
  cache : option (pyobj * pyobj);
  session : gmap string string
}.

Definition initial_state : app_state := mk_app None ∅.

(** One result card (lines 95-103): its column, title and fields. *)
Record card := mk_card {
  card_column : nat;
  card_title : string;
  card_university : cell;
  card_rating : cell;
  card_difficulty : cell;
  card_skills : string;
  card_url : cell
}.

Inductive body :=
| Idle                                         (** empty search box *)
| NoMatches                                    (** [st.warning], line 116 *)
| Found (count : nat) (cards : list card)
        (recs : option (list string * option string))   (** lines 90-114 *)
| SearchFailed (e : re_error).                 (** uncaught [re.error] *)

Inductive view :=
| Stopped (f : load_failure)                   (** [st.error] then [st.stop()] *)
| TypeFailure                                  (** the table file held no DataFrame *)
| Page (options : list cell) (b : body).

(** [Series.unique()]: distinct values in order of first appearance. *)
Fixpoint unique_go (seen : list cell) (l : list cell) : list cell :=
  match l with
  | [] => []
  | x :: l' => if decide (x ∈ seen) then unique_go seen l' else x :: unique_go (x :: seen) l'
  end.

Definition unique (l : list cell) : list cell := unique_go [] l.

(** Line 56: ['All'] followed by the difficulties of the table. *)
Definition filter_options (cs : list course) : list cell :=
  Some "All" :: unique (map difficulty cs).

(** Lines 86-88: the filter applies only when the search found something;
    [==] against NaN keeps nothing. *)
Definition filtered (choice : cell) (results : list course) : list course :=
  match choice with
  | Some f => apply_filter f results
  | None => []
  end.

(** Lines 93-103: card [idx] goes to column [idx % 3]; [row['Skills'][:100]]. *)
Definition card_of (idx : nat) (c : course) : card :=
  mk_card (idx mod 3) (course_name c) (university c) (rating c) (difficulty c)
    (String.substring 0 100 (skills c)) (url c).

Definition cards_of (results : list course) : list card :=
  zip_with card_of (seq 0 (length results)) results.

Section Page.
Context `{RegexEngine}.

(** [get_recommendations] inside its [try]. When the matrix file holds a
    dictionary or a frame instead of a matrix, a query that matches no
    course still returns [[]] at line 64, and one that matches row [i]
    raises [KeyError(i)] at [similarity_matrix[index]], which the [except]
    shows as "Recommendation error: i". *)
Definition recommendations (cs : list course) (sim : pyobj) (name : string)
    : list string * option string :=
  match sim with
  | PyMatrix m => get_recommendations cs m name
  | _ =>
      match find_course cs name with
      | None => ([], None)
      | Some i => ([], Some ("Recommendation error: " +:+ pretty (N.of_nat i)))
      end
  end.

(** Lines 83-116 for a loaded table. *)
Definition page_body (st : app_state) (cs : list course) (sim : pyobj) (inp : inputs) : body :=
  if String.eqb (search_input inp) "" then Idle
  else
    match enhanced_search (search_input inp) cs with
    | Err e => SearchFailed e
    | Ok [] => NoMatches
    | Ok results =>
        let choice := default (Some "All") (filter_options cs !! filter_index inp) in
        let results' := if decide (choice = Some "All") then results else filtered choice results in
        Found (length results') (cards_of results')
          (match session st !! "selected_course" with
           | Some name => Some (recommendations cs sim name)
           | None => None
           end)
    end.

(** One run of the script: the state for the next run and the view. *)
Definition run_page (st : app_state) (disk : fs) (inp : inputs) : app_state * view :=
  let loaded :=
    match cache st with
    | Some objs => Ok objs
    | None => load_resources disk
    end in
  match loaded with
  | Err f => (st, Stopped f)
  | Ok (courses_obj, sim_obj) =>
      let st' := mk_app (Some (courses_obj, sim_obj)) (session st) in
      match courses_obj with
      | PyFrame cs => (st', Page (filter_options cs) (page_body st' cs sim_obj inp))
      | _ => (st', TypeFailure)
      end
  end.

(** A rerun, on whatever the disk holds and whatever the user typed. *)
Inductive step : app_state -> app_state -> Prop :=
| step_rerun st disk inp : step st (run_page st disk inp).1.

Inductive reachable : app_state -> Prop :=
| reach_init : reachable initial_state
| reach_step st st' : reachable st -> step st st' -> reachable st'.

(** A session: reruns in order, each on the disk and the inputs of its
    moment; the views shown, one per rerun. *)
Fixpoint run_trace (st : app_state) (tr : list (fs * inputs)) : app_state * list view :=
  match tr with
  | [] => (st, [])
  | (disk, inp) :: tr' =>
      let (st', v) := run_page st disk inp in
      let (st'', vs) := run_trace st' tr' in
      (st'', v :: vs)
  end.

(** The page is up: a table and a matrix are cached. *)
Definition serving (st : app_state) : Prop :=
  exists cs m, cache st = Some (PyFrame cs, PyMatrix m).

Definition is_page (v : view) : bool :=
  match v with Page _ _ => true | _ => false end.

(** A disk whose files either fail to load or hold a table and a matrix:
    no file holds an object of the wrong type. *)
Definition well_typed_disk (disk : fs) : bool :=
  match load_resources disk with
  | Ok (PyFrame _, PyMatrix _) | Err _ => true
  | Ok _ => false
  end.

End Page.

Section Properties.
Context `{RegexEngine}.
Local Open Scope nat_scope.

Lemma unique_go_spec seen l x : x ∈ unique_go seen l <-> x ∈ l /\ x ∉ seen.
Proof.
  revert seen. induction l as [|y l IH]; intros seen; simpl.
  - set_solver.
  - case_decide.
    + rewrite IH, elem_of_cons. naive_solver.
    + rewrite !elem_of_cons, IH, elem_of_cons.
      destruct (decide (x = y)); subst; tauto.
Qed.

Lemma unique_go_NoDup seen l : NoDup (unique_go seen l).
Proof.
  revert seen. induction l as [|y l IH]; intros seen; simpl; [constructor|].
  case_decide; [done|]. constructor; [|done]. rewrite unique_go_spec. set_solver.
Qed.

(** C37: The difficulty options are ['All'] followed by every difficulty of
    the table exactly once ([unique]). *)
Theorem filter_options_spec cs :
  filter_options cs !! 0 = Some (Some "All") /\
  NoDup (tail (filter_options cs)) /\
  forall d, d ∈ tail (filter_options cs) <-> exists c, c ∈ cs /\ difficulty c = d.
Proof.
  unfold filter_options, unique. simpl. split; [done|]. split; [apply unique_go_NoDup|].
  intros d. rewrite unique_go_spec, list_elem_of_fmap. set_solver.
Qed.

(** C26: The difficulty filter of lines 87-88 on the page: when the search
    finds courses, option 0 (['All']) shows every course found, and an
    option holding a difficulty [d] other than ['All'] shows, in table
    order and one card each, exactly the courses found whose Difficulty
    Level equals [d]. *)
Theorem page_filter_results st cs sim inp results :
  search_input inp <> "" -> enhanced_search (search_input inp) cs = Ok results -> results <> [] ->
  (filter_index inp = 0 ->
     exists recs, page_body st cs sim inp = Found (length results) (cards_of results) recs) /\
  (forall d, filter_options cs !! filter_index inp = Some (Some d) -> d <> "All" ->
     exists recs, page_body st cs sim inp =
       Found (length (filter (fun c => difficulty c = Some d) results))
             (cards_of (filter (fun c => difficulty c = Some d) results)) recs).
Proof.
  intros Hin Hs Hne. unfold page_body.
  rewrite (proj2 (String.eqb_neq _ _) Hin), Hs. destruct results as [|r rs]; [done|].
  split.
  - intros ->. cbn [filter_options lookup list_lookup default]. rewrite decide_True by done. by eexists.
  - intros d Hopt Hd. rewrite Hopt. change (default (Some "All") (Some (Some d))) with (Some d).
    rewrite decide_False by naive_solver. unfold filtered, apply_filter.
    rewrite (proj2 (String.eqb_neq _ _) Hd). by eexists.
Qed.

(** C36: When the search finds courses but none of them has the selected
    difficulty, the page reports "Found 0 matching courses" with no card,
    instead of the "No courses found" warning. *)
Theorem filter_excludes_all_found_zero st cs sim inp results d :
  search_input inp <> "" -> enhanced_search (search_input inp) cs = Ok results -> results <> [] ->
  filter_options cs !! filter_index inp = Some (Some d) -> d <> "All" ->
  Forall (fun c => difficulty c <> Some d) results ->
  exists recs, page_body st cs sim inp = Found 0 [] recs.
Proof.
  intros Hin Hs Hne Hopt Hd Hall. unfold page_body.
  rewrite (proj2 (String.eqb_neq _ _) Hin), Hs, Hopt. destruct results as [|r rs]; [done|].
  change (default (Some "All") (Some (Some d))) with (Some d).
  rewrite decide_False by naive_solver. unfold filtered, apply_filter.
  rewrite (proj2 (String.eqb_neq _ _) Hd), filter_Forall_not by done. by eexists.
Qed.

Lemma run_page_session st disk inp : session (run_page st disk inp).1 = session st.
Proof.
  unfold run_page. destruct (match cache st with Some o => Ok o | None => _ end)
    as [[o1 o2]|f]; [destruct o1|]; done.
Qed.

(** No run writes [st.session_state]: the two widgets have no [key]. *)
Lemma reachable_session st : reachable st -> session st = ∅.
Proof.
  induction 1 as [|st st' _ IH Hstep]; [done|].
  destruct Hstep. by rewrite run_page_session.
Qed.

(** C2: The recommendation section (lines 107-114) is dead code: on every
    page a reachable state renders, the results carry no recommendations,
    whatever the disk, the search text and the filter. *)
Theorem recommendations_never_shown st disk inp st' opts n cards recs :
  reachable st ->
  run_page st disk inp = (st', Page opts (Found n cards recs)) -> recs = None.
Proof.
  intros Hr Hrun. unfold run_page in Hrun.
  destruct (match cache st with Some o => Ok o | None => _ end)
    as [[o1 o2]|f]; [|discriminate]. destruct o1 as [| |cs]; try discriminate.
  injection Hrun as _ _ Hbody. unfold page_body in Hbody. cbn [session] in Hbody.
  rewrite (reachable_session st Hr), lookup_empty in Hbody.
  destruct (String.eqb _ _); [discriminate|].
  destruct (enhanced_search _ _) as [[|r rs]|e]; congruence.
Qed.

(** C34: Once a run has cached the artifacts, later runs do not read the
    disk: the page is the same whatever the files now hold, and the cache
    keeps its value. *)
Theorem cached_run_ignores_disk st objs disk1 disk2 inp :
  cache st = Some objs ->
  run_page st disk1 inp = run_page st disk2 inp /\ cache (run_page st disk1 inp).1 = Some objs.
Proof.
  intros Hc. unfold run_page. rewrite Hc. destruct objs as [o1 o2].
  split; [done|]. by destruct o1.
Qed.

(** ** Liveness of the page *)

Lemma run_trace_cons st disk inp tr :
  run_trace st ((disk, inp) :: tr) =
  ((run_trace (run_page st disk inp).1 tr).1,
   (run_page st disk inp).2 :: (run_trace (run_page st disk inp).1 tr).2).
Proof.
  cbn [run_trace]. destruct (run_page st disk inp) as [st0 v]. cbn [fst snd].
  destruct (run_trace st0 tr). reflexivity.
Qed.

Lemma run_trace_app st tr1 tr2 :
  (run_trace st (tr1 ++ tr2)).2 =
  (run_trace st tr1).2 ++ (run_trace (run_trace st tr1).1 tr2).2.
Proof.
  revert st. induction tr1 as [|[disk inp] tr1 IH]; intros st; [done|].
  rewrite <- app_comm_cons, !run_trace_cons. simpl. by rewrite IH.
Qed.

Lemma length_run_trace st tr : length (run_trace st tr).2 = length tr.
Proof.
  revert st. induction tr as [|[disk inp] tr IH]; intros st; [done|].
  rewrite run_trace_cons. simpl. by rewrite IH.
Qed.

(** A serving page keeps serving, whatever the disk and the inputs. *)
Lemma serving_run st disk inp :
  serving st -> serving (run_page st disk inp).1 /\ is_page (run_page st disk inp).2 = true.
Proof.
  intros (cs & m & Hc). unfold run_page. rewrite Hc. simpl. split; [by exists cs, m|done].
Qed.

Lemma serving_trace st tr :
  serving st -> Forall (fun v => is_page v = true) (run_trace st tr).2.
Proof.
  revert st. induction tr as [|[disk inp] tr IH]; intros st Hs; [constructor|].
  rewrite run_trace_cons. destruct (serving_run st disk inp Hs). constructor; auto.
Qed.

(** Before the page is up, a rerun on a well-typed disk either leaves the
    cache empty or brings the page up. *)
Lemma cold_run st disk inp :
  cache st = None -> well_typed_disk disk = true ->
  cache (run_page st disk inp).1 = None \/ serving (run_page st disk inp).1.
Proof.
  unfold run_page, well_typed_disk. intros Hc Hwt. rewrite Hc.
  destruct (load_resources disk) as [[[| |cs] [m| |]]|f]; try discriminate; simpl;
    first [by left | right; by exists cs, m].
Qed.

Lemma cold_trace st pre :
  cache st = None -> Forall (fun e => well_typed_disk e.1 = true) pre ->
  cache (run_trace st pre).1 = None \/ serving (run_trace st pre).1.
Proof.
  revert st. induction pre as [|[disk inp] pre IH]; intros st Hc Hwt; [by left|].
  apply Forall_cons in Hwt as [Hd Hwt]. rewrite run_trace_cons. simpl.
  destruct (cold_run st disk inp Hc Hd) as [Hc'|Hs]; [by apply IH|].
  right. generalize dependent (run_page st disk inp).1. clear. intros st Hs.
  revert st Hs. induction pre as [|[disk inp] pre IH]; intros st Hs; [done|].
  rewrite run_trace_cons. apply IH, serving_run, Hs.
Qed.

(** C32: Liveness: in a session that starts cold and whose disks never hold
    an object of the wrong type, the first rerun that finds a table and a
    matrix on disk shows the page, and so does every rerun after it,
    whatever the files then hold. *)
Theorem page_eventually_serves st pre disk inp post :
  cache st = None -> Forall (fun e => well_typed_disk e.1 = true) pre ->
  (exists cs m, load_resources disk = Ok (PyFrame cs, PyMatrix m)) ->
  Forall (fun v => is_page v = true) (drop (length pre) (run_trace st (pre ++ (disk, inp) :: post)).2).
Proof.
  intros Hc Hwt (cs & m & Hload).
  rewrite run_trace_app, drop_app_length' by (symmetry; apply length_run_trace).
  assert (serving (run_page (run_trace st pre).1 disk inp).1 /\
          is_page (run_page (run_trace st pre).1 disk inp).2 = true) as [Hs Hp].
  { destruct (cold_trace st pre Hc Hwt) as [Hc'|Hs].
    - unfold run_page. rewrite Hc', Hload. split; [by exists cs, m | done].
    - by apply serving_run. }
  rewrite run_trace_cons. constructor; [done|]. by apply serving_trace.
Qed.

(** C33: A cached object of the wrong type is never evicted: once the table
    file has been read as something other than a DataFrame, every later
    rerun fails, even after the file is repaired. *)
Theorem cached_type_failure_sticks st o1 o2 tr :
  cache st = Some (o1, o2) -> (forall cs, o1 <> PyFrame cs) ->
  Forall (fun v => v = TypeFailure) (run_trace st tr).2.
Proof.
  intros Hc Hwrong. revert st Hc. induction tr as [|[disk inp] tr IH]; intros st Hc; [constructor|].
  rewrite run_trace_cons. unfold run_page at 2 3. rewrite Hc.
  destruct o1 as [m|cs|cs]; [| |by destruct (Hwrong cs)]; simpl; (constructor; [done|]); apply IH; done.
Qed.

End Properties.

Section Served.
Context `{RegexEngineLaws}.

(** C35: End to end, from the save to the page: after [save_resources], the
    first run of a fresh session with a literal query and the default
    filter caches the saved pair and lists, in table order, exactly the
    saved courses whose name, description or skills contain the query, or
    warns that none does; no recommendation is computed. *)
Theorem first_run_after_save cs sim s s' q :
  save_resources cs sim s = Ok s' -> q <> "" -> literal_pattern (normalize_query q) = true ->
  run_page initial_state s' (mk_inputs q 0) =
    (mk_app (Some (PyFrame cs, PyMatrix sim)) ∅,
     Page (filter_options cs)
       (match filter (fun c => course_matches (contains (normalize_query q)) c = true) cs with
        | [] => NoMatches
        | results => Found (length results) (cards_of results) None
        end)).
Proof.
  intros Hsave Hq Hlit. unfold run_page. cbn [cache initial_state].
  rewrite (save_resources_load cs sim s s' Hsave). f_equal. f_equal.
  unfold page_body. cbn [search_input filter_index session].
  rewrite (proj2 (String.eqb_neq _ _) Hq). unfold enhanced_search.
  rewrite regex_literal by done. cbn [result_bind].
  destruct (filter _ cs) as [|r rs]; [done|]. rewrite decide_True by done. done.
Qed.

End Served.

End App.

Module AppWitnesses.
Import App.

Local Abbreviation sample_courses :=
  [mk_course "data science basics" None (Some "Beginner") None None "learn data analysis" "python" "";
   mk_course "big data" None (Some "Advanced") None None "data at scale" "spark" ""].

Local Abbreviation sample_sim := [[1; 0]; [0; 1]]%Q.

Local Abbreviation sample_disk :=
  (mk_fs {[models_dir]} {[courses_path := Pickled (PyFrame sample_courses);
                          similarity_path := Pickled (PyMatrix sample_sim)]}).

Local Abbreviation data_query := (mk_inputs "Data" 0).

Local Abbreviation opera_query := (mk_inputs "data" 2).

Lemma recommendations_never_shown_witness :
  exists st' opts n cards, run_page initial_state sample_disk data_query =
    (st', Page opts (Found n cards None)).
Proof.
  destruct (run_page initial_state sample_disk data_query) as [st' [f| |opts [| |n cards recs|e]]] eqn:Hrun;
    try (vm_compute in Hrun; discriminate).
  exists st', opts, n, cards.
  rewrite <- (recommendations_never_shown initial_state sample_disk data_query st' opts n cards recs
                reach_init Hrun).
  reflexivity.
Defined.

Lemma cached_run_ignores_disk_witness :
  run_page (mk_app (Some (PyFrame sample_courses, PyMatrix sample_sim)) ∅) sample_disk data_query =
  run_page (mk_app (Some (PyFrame sample_courses, PyMatrix sample_sim)) ∅) (mk_fs ∅ ∅) data_query.
Proof. apply (cached_run_ignores_disk _ (PyFrame sample_courses, PyMatrix sample_sim)). reflexivity. Defined.

Lemma first_run_after_save_witness :
  run_page initial_state
    (mk_fs ({[models_dir]} ∪ ∅)
       (<[courses_path := Pickled (PyFrame sample_courses)]>
          (<[course_list_path := Pickled (PyDict sample_courses)]>
             (<[similarity_path := Pickled (PyMatrix sample_sim)]> ∅)))) data_query =
    (mk_app (Some (PyFrame sample_courses, PyMatrix sample_sim)) ∅,
     Page (filter_options sample_courses)
       (match filter (fun c => course_matches (contains (normalize_query "Data")) c = true)
                sample_courses with
        | [] => NoMatches
        | results => Found (length results) (cards_of results) None
        end)).
Proof.
  apply (first_run_after_save _ _ (mk_fs ∅ ∅)).
  - apply save_resources_Ok. unfold save_ready. simpl. split_and!; set_solver.
  - discriminate.
  - vm_compute. reflexivity.
Defined.

Lemma page_filter_results_witness :
  exists recs, page_body initial_state sample_courses (PyMatrix sample_sim) opera_query =
    Found (length (filter (fun c => difficulty c = Some "Advanced") sample_courses))
          (cards_of (filter (fun c => difficulty c = Some "Advanced") sample_courses)) recs.
Proof.
  destruct (page_filter_results initial_state sample_courses (PyMatrix sample_sim) opera_query
              sample_courses) as [_ H2]; [discriminate | vm_compute; reflexivity | discriminate |].
  apply H2; [vm_compute; reflexivity | discriminate].
Defined.

Lemma filter_excludes_all_found_zero_witness :
  exists recs, page_body initial_state sample_courses (PyMatrix sample_sim) (mk_inputs "science" 2) =
    Found 0 [] recs.
Proof.
  apply (filter_excludes_all_found_zero initial_state sample_courses (PyMatrix sample_sim)
           (mk_inputs "science" 2) [mk_course "data science basics" None (Some "Beginner") None None
                                     "learn data analysis" "python" ""] "Advanced").
  - discriminate.
  - vm_compute. reflexivity.
  - discriminate.
  - vm_compute. reflexivity.
  - discriminate.
  - repeat constructor. cbn. discriminate.
Defined.

Lemma page_eventually_serves_witness :
  Forall (fun v => is_page v = true)
    (drop 1 (run_trace initial_state
       ([(mk_fs ∅ ∅, data_query)] ++ (sample_disk, data_query) :: [(mk_fs ∅ ∅, data_query)])).2).
Proof.
  apply (page_eventually_serves initial_state [(mk_fs ∅ ∅, data_query)] sample_disk data_query
           [(mk_fs ∅ ∅, data_query)]).
  - reflexivity.
  - constructor; [vm_compute; reflexivity | constructor].
  - exists sample_courses, sample_sim. reflexivity.
Defined.

Lemma cached_type_failure_sticks_witness :
  Forall (fun v => v = TypeFailure)
    (run_trace (mk_app (Some (PyDict sample_courses, PyMatrix sample_sim)) ∅)
       [(sample_disk, data_query); (sample_disk, opera_query)]).2.
Proof.
  apply (cached_type_failure_sticks _ (PyDict sample_courses) (PyMatrix sample_sim)).
  - reflexivity.
  - intros cs. discriminate.
Defined.

End AppWitnesses.
